(** * loki_api_client.loki_connect: a shallow embedding of [LokiConnect]

    The module under study is [src/loki_api_client/loki_connect.py]: a
    constructor and two methods, [ready] and [query], that build a
    parameter dictionary and perform one GET through a [requests] session.

    Python values are dynamically typed, dictionaries are shared mutable
    objects, and every statement may raise.  The embedding therefore has
    - a type [pyval] of the Python values the arguments range over,
    - a heap of dictionaries addressed by reference ([loc]), so that a
      dictionary handed in by the caller and the one the method writes to
      are the same object when the source makes them the same object,
    - a small state-and-exception monad [M] in which the state survives a
      raise (the caller can catch the exception and look at its objects).

    The libraries the module calls ([requests], [urllib.parse], the JSON
    decoder and the remote host) are the environment: they are parameters
    of [Section Client], except for what the module's behaviour turns on:
    [Response.ok] and [Response.raise_for_status], the mounting and lookup
    of adapters, and what the session does with a status on the adapter's
    retry list.  These are written out. *)

From Stdlib Require Import ZArith String Ascii List Lia.
From stdpp Require Import base option gmap strings list fin_maps.

Local Open Scope Z_scope.
Local Open Scope string_scope.

(** ** Python values *)

#[local] Set Warnings "-register-all".

(** The values that the arguments [query], [limit], [time] and [direction]
    and the entries of a parameter dictionary take in this development. *)
Inductive pyval : Type :=
  | VNone
  | VBool (b : bool)
  | VInt (z : Z)
  | VStr (s : string)
  | VList (l : list pyval).

Inductive pytype : Type := TNoneType | TBool | TInt | TStr | TList.

(** [type(v)] *)
Definition py_type (v : pyval) : pytype :=
  match v with
  | VNone => TNoneType
  | VBool _ => TBool
  | VInt _ => TInt
  | VStr _ => TStr
  | VList _ => TList
  end.

(** [bool(v)]: what [if v:] tests. *)
Definition truthy (v : pyval) : bool :=
  match v with
  | VNone => false
  | VBool b => b
  | VInt z => negb (z =? 0)%Z
  | VStr s => negb (s =? EmptyString)%string
  | VList l => match l with [] => false | _ :: _ => true end
  end.

(** [isinstance(v, str)] *)
Definition isinstance_str (v : pyval) : bool :=
  match v with VStr _ => true | _ => false end.

(** [v == s] for a string literal [s]: a [str] is equal only to a [str]. *)
Definition py_eq_str (v : pyval) (s : string) : bool :=
  match v with VStr t => (t =? s)%string | _ => false end.

(** [v in l] for a list [l] of string literals. *)
Definition py_in_strs (v : pyval) (l : list string) : bool :=
  existsb (py_eq_str v) l.

(** ** Exceptions *)

(** An argument of [str.format]: a value or a type object. *)
Inductive fmtarg : Type := AVal (v : pyval) | AType (t : pytype).

(** An exception message: a literal, or a [str.format] template together
    with its arguments (the rendering of the arguments is left to Python). *)
Inductive pymsg : Type :=
  | Msg (s : string)
  | Format (template : string) (args : list fmtarg).

Inductive pyexc : Type :=
  | TypeError (m : pymsg)
  | ValueError (m : pymsg)
  | HTTPError (status_code : Z) (text : string)  (* requests.HTTPError *)
  | JSONDecodeError (text : string)              (* raised by Response.json *)
  | ConnectionError                              (* requests.ConnectionError *)
  | RetryError                                   (* requests.RetryError *)
  | InvalidSchema.                               (* requests.InvalidSchema *)

(** The error kinds of the specification, as far as [pyexc] tells them
    apart. *)
Definition InvalidArgument (e : pyexc) : Prop :=
  match e with TypeError _ | ValueError _ => True | _ => False end.
Definition HTTPStatusError (e : pyexc) : Prop :=
  match e with HTTPError _ _ => True | _ => False end.
Definition DecodeError (e : pyexc) : Prop :=
  match e with JSONDecodeError _ => True | _ => False end.
Definition TransportError (e : pyexc) : Prop :=
  match e with ConnectionError | RetryError => True | _ => False end.
(** The constructor's own failure, line 54. *)
Definition ConfigurationError (e : pyexc) : Prop :=
  e = TypeError (Msg "missing url").

Inductive result (A : Type) : Type :=
  | Ok (a : A)
  | Raise (e : pyexc).
Arguments Ok {A} a.
Arguments Raise {A} e.

(** ** Module constants, lines 24-28 *)

Definition MAX_REQUEST_RETRIES : Z := 3.
Definition RETRY_BACKOFF_FACTOR : Z := 1.
Definition RETRY_ON_STATUS : list Z := [408; 429; 500; 502; 503; 504].

(** ** The objects of [requests] the client holds *)

(** [urllib3.util.retry.Retry], the three attributes the module sets. *)
Record Retry : Type := mkRetry {
  total : Z;
  backoff_factor : Z;
  status_forcelist : list Z
}.

(** [Retry.is_retry] on a status code, as far as [status_forcelist] decides
    it: [status_code in self.status_forcelist]. *)
Definition retry_on_status (r : Retry) (status_code : Z) : bool :=
  bool_decide (status_code ∈ status_forcelist r).

(** [requests.adapters.HTTPAdapter(max_retries=retry)] keeps a [Retry]
    object as it is. *)
Record HTTPAdapter : Type := mkHTTPAdapter { max_retries : Retry }.

(** The adapter [requests.Session()] mounts by default: [Retry(0)]. *)
Definition default_adapter : HTTPAdapter :=
  mkHTTPAdapter (mkRetry 0 0 []).

(** [requests.Session]: the ordered dictionary of mounted adapters. *)
Record Session : Type := mkSession {
  adapters : list (string * HTTPAdapter)
}.

(** [requests.Session()] *)
Definition Session_new : Session :=
  mkSession [("https://", default_adapter); ("http://", default_adapter)].

(** [d[k] = v] on an insertion-ordered dictionary. *)
Fixpoint odict_set {V : Type} (k : string) (v : V) (d : list (string * V))
  : list (string * V) :=
  match d with
  | [] => [(k, v)]
  | (k', v') :: d' =>
      if (k' =? k)%string then (k, v) :: d' else (k', v') :: odict_set k v d'
  end.

Fixpoint odict_get {V : Type} (k : string) (d : list (string * V)) : option V :=
  match d with
  | [] => None
  | (k', v') :: d' => if (k' =? k)%string then Some v' else odict_get k d'
  end.

(** [Session.mount(prefix, adapter)]: register the adapter, then move every
    shorter prefix behind it. *)
Definition Session_mount (s : Session) (prefix : string) (a : HTTPAdapter)
  : Session :=
  let d := odict_set prefix a (adapters s) in
  let shorter (kv : string * HTTPAdapter) :=
    (String.length (fst kv) <? String.length prefix)%nat in
  mkSession (List.filter (fun kv => negb (shorter kv)) d ++ List.filter shorter d).

(** ** Which adapter serves a URL *)

(** [str.lower], on ASCII text. *)
Definition lower_ascii (c : ascii) : ascii :=
  let n := nat_of_ascii c in
  if ((65 <=? n) && (n <=? 90))%nat then ascii_of_nat (n + 32) else c.

Fixpoint str_lower (s : string) : string :=
  match s with
  | EmptyString => EmptyString
  | String c s' => String (lower_ascii c) (str_lower s')
  end.

Definition is_ascii_text (s : string) : Prop :=
  Forall (fun c => (nat_of_ascii c < 128)%nat) (list_ascii_of_string s).

(** [requests.Session.get_adapter(url)]: the first mounted prefix, in the
    order of the dictionary, that the lowered URL starts with; [None] when
    there is none ([InvalidSchema]). *)
Fixpoint find_adapter (d : list (string * HTTPAdapter)) (u : string)
  : option HTTPAdapter :=
  match d with
  | [] => None
  | (p, a) :: d' =>
      if String.prefix (str_lower p) (str_lower u) then Some a
      else find_adapter d' u
  end.

Definition Session_get_adapter (s : Session) (u : string) : option HTTPAdapter :=
  find_adapter (adapters s) u.

(** ** The client object *)

(** A reference to a dictionary object. *)
Abbreviation loc := positive.

(** The attributes [__init__] sets, in its order.  [headers] is [None] or a
    reference to the caller's dictionary; [_all_metrics] is always [None]. *)
Record LokiConnect : Type := mkLokiConnect {
  headers : option loc;
  url : string;
  loki_host : string;
  _all_metrics : unit;
  ssl_verification : bool;
  ignore_http_errors : bool;
  _session : Session
}.

(** ** Requests and responses *)

(** What one [Session.get] sends: the URL, the [verify] flag, and the
    contents of the header and parameter dictionaries at the time of the
    call. *)
Record Request : Type := mkRequest {
  req_url : string;
  req_verify : bool;
  req_headers : option (gmap string pyval);
  req_params : gmap string pyval
}.

Record Response : Type := mkResponse {
  status_code : Z;
  text : string
}.

(** [requests.Response.raise_for_status] raises exactly on a client error
    ([400 <= status_code < 500]) or a server error
    ([500 <= status_code < 600]). *)
Definition is_client_error (r : Response) : bool :=
  (400 <=? status_code r)%Z && (status_code r <? 500)%Z.
Definition is_server_error (r : Response) : bool :=
  (500 <=? status_code r)%Z && (status_code r <? 600)%Z.

(** [requests.Response.ok]: [True] unless [raise_for_status] raises. *)
Definition ok (r : Response) : bool :=
  negb (is_client_error r || is_server_error r).

(** ** What [Session.get] makes of the host's answer *)

(** [answer] is what the host sends to the last attempt the transport
    makes: a response, or nothing when the host cannot be reached.  The
    session first looks up the adapter that serves the URL and raises
    [InvalidSchema] when there is none.  The adapter retries while the
    status is on its retry list, so a last answer with such a status means
    the retries have run out: [urllib3] raises [MaxRetryError] and
    [requests] turns it into [RetryError].  (The attributes of [Retry]
    other than the three above are at their defaults: [raise_on_status] is
    [True] and GET is a method that is retried.)  Any other response is
    delivered.  No answer after the retries is a [ConnectionError].  A
    response here has no [Retry-After] header, the other thing [urllib3]
    retries on. *)
Definition transport (s : Session) (u : string) (answer : option Response)
  : result Response :=
  match Session_get_adapter s u with
  | None => Raise InvalidSchema
  | Some a =>
      match answer with
      | None => Raise ConnectionError
      | Some r =>
          if retry_on_status (max_retries a) (status_code r)
          then Raise RetryError
          else Ok r
      end
  end.

(** ** Program state *)

(** The dictionary objects that exist, the client object ([self]) and the
    requests sent so far, oldest first. *)
Record State : Type := mkState {
  heap : gmap loc (gmap string pyval);
  this : LokiConnect;
  trace : list Request
}.

(** The contents of the dictionary at [l]. *)
Definition deref (st : State) (l : loc) : gmap string pyval :=
  default ∅ (heap st !! l).

Definition deref_opt (st : State) (o : option loc) : option (gmap string pyval) :=
  deref st <$> o.

(** ** The monad: state and exceptions *)

Definition M (A : Type) : Type := State -> result A * State.

Definition ret {A : Type} (a : A) : M A := fun st => (Ok a, st).

Definition raise {A : Type} (e : pyexc) : M A := fun st => (Raise e, st).

Definition bind {A B : Type} (m : M A) (k : A -> M B) : M B :=
  fun st =>
    match m st with
    | (Ok a, st') => k a st'
    | (Raise e, st') => (Raise e, st')
    end.

Declare Scope py_scope.
Delimit Scope py_scope with py.
Notation "x <- c1 ;; c2" := (bind c1 (fun x => c2))
  (at level 100, c1 at next level, right associativity) : py_scope.
Notation "c1 ;; c2" := (bind c1 (fun _ => c2))
  (at level 100, right associativity) : py_scope.
Local Open Scope py_scope.

Definition get_self : M LokiConnect := fun st => (Ok (this st), st).

(** [{}]: a new, empty dictionary object. *)
Definition new_dict : M loc :=
  fun st =>
    let l := fresh (dom (heap st)) in
    (Ok l, mkState (<[l := ∅]> (heap st)) (this st) (trace st)).

(** [bool(d)] for a dictionary reference: non-empty. *)
Definition dict_truthy (l : loc) : M bool :=
  fun st => (Ok (negb (bool_decide (deref st l = ∅))), st).

(** [d[k] = v] *)
Definition dict_setitem (l : loc) (k : string) (v : pyval) : M unit :=
  fun st =>
    (Ok tt, mkState (<[l := <[k := v]> (deref st l)]> (heap st)) (this st) (trace st)).

(** [params or {}], for [params] that is [None] or a dictionary. *)
Definition or_new_dict (params : option loc) : M loc :=
  match params with
  | None => new_dict
  | Some l => b <- dict_truthy l ;; if b then ret l else new_dict
  end.

Definition when (b : bool) (m : M unit) : M unit := if b then m else ret tt.

(** ** The client, over its environment *)

Section Client.

(** [urllib.parse.urlparse(url).netloc]: the network location, or the
    message of the [ValueError] that [urlparse] raises on a string it
    rejects. *)
Variable urlparse_netloc : string -> string + pymsg.

(** The value [Response.json] returns, and the decoder: [None] when the
    text is not valid JSON. *)
Variable JSON : Type.
Variable json_loads : string -> option JSON.

(** The remote host: given the requests sent before and the present one,
    its answer to the last attempt the transport makes, or [None] when it
    cannot be reached. *)
Variable host : list Request -> Request -> option Response.

(** [session.get(url, verify=..., headers=..., params=...)] *)
Definition Session_get (session : Session) (u : string) (verify : bool)
    (hdrs : option loc) (params : loc) : M Response :=
  fun st =>
    let req := mkRequest u verify (deref_opt st hdrs) (deref st params) in
    let st' := mkState (heap st) (this st) (trace st ++ [req]) in
    (transport session u (host (trace st) req), st').

(** [response.raise_for_status()] *)
Definition raise_for_status (r : Response) : M unit :=
  if is_client_error r || is_server_error r
  then raise (HTTPError (status_code r) (text r))
  else ret tt.

(** [response.json()] *)
Definition Response_json (r : Response) : M JSON :=
  match json_loads (text r) with
  | Some j => ret j
  | None => raise (JSONDecodeError (text r))
  end.

(** [LokiConnect.__init__], lines 44-71.  [url] is [None] or a [str];
    [headers] is [None] or a dictionary; [retry] is [None] or a [Retry]. *)
Definition __init__ (url : option string) (headers : option loc)
    (disable_ssl : bool) (retry : option Retry) (ignore_http_errors : bool)
  : result LokiConnect :=
  match url with
  | None => Raise (TypeError (Msg "missing url"))
  | Some url =>
      match urlparse_netloc url with
      | inr m => Raise (ValueError m)
      | inl netloc =>
          let retry :=
            match retry with
            | None => mkRetry MAX_REQUEST_RETRIES RETRY_BACKOFF_FACTOR RETRY_ON_STATUS
            | Some r => r
            end in
          Ok {| headers := headers;
                url := url;
                loki_host := netloc;
                _all_metrics := tt;
                ssl_verification := negb disable_ssl;
                ignore_http_errors := ignore_http_errors;
                _session := Session_mount Session_new url (mkHTTPAdapter retry) |}
      end
  end.

(** The default of the [url] argument. *)
Definition default_url : string := "http://127.0.0.1:3100".

(** [LokiConnect.ready], lines 73-93. *)
Definition ready (params : option loc) : M bool :=
  params <- or_new_dict params ;;
  self <- get_self ;;
  response <- Session_get (_session self) (url self +:+ "/ready")
                (ssl_verification self) (headers self) params ;;
  ret (ok response).

Definition direction_supported_values : list string := ["backward"; "forward"].

(** [LokiConnect.query], lines 95-154. *)
Definition query (query limit time direction : pyval) (params : option loc)
  : M JSON :=
  params <- or_new_dict params ;;
  (if truthy query then
     if negb (isinstance_str query) then
       raise (TypeError
                (Format "Incorrect query type: {}, should be type: {}"
                   [AType (py_type query); AType TStr]))
     else dict_setitem params "query" query
   else raise (ValueError (Msg "query empty"))) ;;
  when (truthy time) (dict_setitem params "time" time) ;;
  when (truthy limit) (dict_setitem params "limit" limit) ;;
  (if negb (py_in_strs direction direction_supported_values) then
     raise (ValueError (Format "Invalid direction Value: {}" [AVal direction]))
   else ret tt) ;;
  dict_setitem params "direction" direction ;;
  self <- get_self ;;
  response <- Session_get (_session self) (url self +:+ "/loki/api/v1/query")
                (ssl_verification self) (headers self) params ;;
  when (negb (ignore_http_errors self)) (raise_for_status response) ;;
  Response_json response.

(** The defaults of [query]'s keyword arguments. *)
Definition default_limit : pyval := VInt 10.
Definition default_time : pyval := VNone.
Definition default_direction : pyval := VStr "backward".

End Client.

Arguments query {JSON} json_loads host query limit time direction params.

Arguments Session_get host session u verify hdrs params st /.
Arguments raise_for_status r st /.
Arguments Response_json {JSON} json_loads r st /.

(** ** What a call works on *)

(** The following functions are not part of the program: they name, for a
    state and an argument list, the objects a call is about to touch, so
    that the theorems below can speak of them. *)

(** [params or {}] keeps the caller's dictionary exactly when it is given
    and not empty. *)
Definition keeps_caller_dict (st : State) (params : option loc) : bool :=
  match params with
  | Some p => negb (bool_decide (deref st p = ∅))
  | None => false
  end.

(** The dictionary a call writes to and sends. *)
Definition target (st : State) (params : option loc) : loc :=
  match params with
  | Some p => if keeps_caller_dict st params then p else fresh (dom (heap st))
  | None => fresh (dom (heap st))
  end.

(** The state after [params = params or {}]. *)
Definition after_or (st : State) (params : option loc) : State :=
  if keeps_caller_dict st params then st
  else mkState (<[fresh (dom (heap st)) := ∅]> (heap st)) (this st) (trace st).

(** The entries the caller supplied: the contents of [params], nothing when
    [params] is [None]. *)
Definition extras (st : State) (params : option loc) : gmap string pyval :=
  match params with
  | Some p => deref st p
  | None => ∅
  end.

(** The dictionary [query] has built when it reaches [Session.get],
    starting from the entries [d]: lines 129, 133-137 and 142. *)
Definition with_query (query : pyval) (d : gmap string pyval) :=
  <["query" := query]> d.
Definition with_time (time : pyval) (d : gmap string pyval) :=
  if truthy time then <["time" := time]> d else d.
Definition with_limit (limit : pyval) (d : gmap string pyval) :=
  if truthy limit then <["limit" := limit]> d else d.
Definition built_params (query limit time direction : pyval)
    (d : gmap string pyval) : gmap string pyval :=
  <["direction" := direction]>
    (with_limit limit (with_time time (with_query query d))).

(** The keys [query] writes. *)
Definition named_keys : list string := ["query"; "time"; "limit"; "direction"].

(** A state whose dictionary at [l] has been replaced by [d]. *)
Definition store (st : State) (l : loc) (d : gmap string pyval) : State :=
  mkState (<[l := d]> (heap st)) (this st) (trace st).

(** A state with one more request sent. *)
Definition sent (st : State) (r : Request) : State :=
  mkState (heap st) (this st) (trace st ++ [r]).

(** The requests the two methods send from a state. *)
Definition ready_request (st : State) (params : option loc) : Request :=
  let st1 := after_or st params in
  mkRequest (url (this st) +:+ "/ready") (ssl_verification (this st))
    (deref_opt st1 (headers (this st))) (extras st params).

Definition query_request (st : State) (query limit time direction : pyval)
    (params : option loc) : Request :=
  let d := built_params query limit time direction (extras st params) in
  let st4 := store (after_or st params) (target st params) d in
  mkRequest (url (this st) +:+ "/loki/api/v1/query") (ssl_verification (this st))
    (deref_opt st4 (headers (this st))) d.

(** What [Session.get] makes of the request [req] sent from the state
    [st]: the response it delivers, or the exception it raises. *)
Definition session_outcome (host : list Request -> Request -> option Response)
    (st : State) (req : Request) : result Response :=
  transport (_session (this st)) (req_url req) (host (trace st) req).

(** The arguments [query] accepts: lines 122-131 and 139-141. *)
Definition valid_args (query direction : pyval) : bool :=
  truthy query && isinstance_str query
  && py_in_strs direction direction_supported_values.

(** What [Response.json] makes of a response. *)
Definition decoded {JSON : Type} (json_loads : string -> option JSON)
    (r : Response) : result JSON :=
  match json_loads (text r) with
  | Some j => Ok j
  | None => Raise (JSONDecodeError (text r))
  end.

(** What [query] makes of a response: lines 151-154. *)
Definition query_outcome {JSON : Type} (json_loads : string -> option JSON)
    (ignore : bool) (r : Response) : result JSON :=
  if negb ignore && (is_client_error r || is_server_error r)
  then Raise (HTTPError (status_code r) (text r))
  else decoded json_loads r.

(** ** Sequences of calls *)

Inductive Call : Type :=
  | CallReady (params : option loc)
  | CallQuery (query limit time direction : pyval) (params : option loc).

Section Calls.
Context {JSON : Type} (json_loads : string -> option JSON).
Variable host : list Request -> Request -> option Response.

(** One call; the caller goes on whether it returned or raised. *)
Definition run_call (c : Call) (st : State) : State :=
  match c with
  | CallReady p => snd (ready host p st)
  | CallQuery q l t d p => snd (query json_loads host q l t d p st)
  end.

Definition run_calls (cs : list Call) (st : State) : State :=
  fold_left (fun st c => run_call c st) cs st.
End Calls.

(** The call hands [query] the dictionary that the client holds as its
    headers. *)
Definition passes_headers_as_params (self : LokiConnect) (c : Call) : Prop :=
  match c with
  | CallQuery _ _ _ _ (Some p) => headers self = Some p
  | _ => False
  end.

(** ** [urllib.parse]: the network location of a URL *)

(** The outcome of [urlparse(url).netloc] is a parameter of [__init__]
    above.  [urlsplit_netloc] is the instance used for closed examples.  It
    follows [urllib.parse.urlsplit]: strip leading control characters and
    spaces, drop tab, CR and LF, split off a scheme, take the text between a
    leading [//] and the first of [/ ? #], and raise [ValueError] when that
    text has a square bracket without its partner.  The further checks
    [urlsplit] makes on a network location (the text between balanced
    brackets, non-ASCII characters) are not part of it. *)
Module UrlParse.

Definition is_c0_or_space (c : ascii) : bool := (nat_of_ascii c <=? 32)%nat.

Definition is_unsafe (c : ascii) : bool :=
  let n := nat_of_ascii c in (n =? 9)%nat || (n =? 13)%nat || (n =? 10)%nat.

Definition is_alpha (c : ascii) : bool :=
  let n := nat_of_ascii c in
  ((65 <=? n) && (n <=? 90) || (97 <=? n) && (n <=? 122))%nat.

Definition is_digit (c : ascii) : bool :=
  let n := nat_of_ascii c in ((48 <=? n) && (n <=? 57))%nat.

(** [scheme_chars]: letters, digits and [+-.] *)
Definition is_scheme_char (c : ascii) : bool :=
  let n := nat_of_ascii c in
  is_alpha c || is_digit c || (n =? 43)%nat || (n =? 45)%nat || (n =? 46)%nat.

Definition is_delim (c : ascii) : bool :=
  let n := nat_of_ascii c in (n =? 47)%nat || (n =? 63)%nat || (n =? 35)%nat.

Definition has (c : ascii) (l : list ascii) : bool :=
  existsb (Ascii.eqb c) l.

Fixpoint lstrip (l : list ascii) : list ascii :=
  match l with
  | c :: l' => if is_c0_or_space c then lstrip l' else l
  | [] => []
  end.

(** [url.find(':')], with the text before it. *)
Fixpoint split_colon (l : list ascii) : option (list ascii * list ascii) :=
  match l with
  | [] => None
  | c :: l' =>
      if Ascii.eqb c ":" then Some ([], l')
      else match split_colon l' with
           | Some (a, b) => Some (c :: a, b)
           | None => None
           end
  end.

(** The URL without its scheme, when it has one. *)
Definition drop_scheme (l : list ascii) : list ascii :=
  match split_colon l with
  | Some (c :: a, rest) =>
      if is_alpha c && forallb is_scheme_char (c :: a) then rest else l
  | _ => l
  end.

Fixpoint take_netloc (l : list ascii) : list ascii :=
  match l with
  | c :: l' => if is_delim c then [] else c :: take_netloc l'
  | [] => []
  end.

Definition urlsplit_netloc (url : string) : string + pymsg :=
  let l := List.filter (fun c => negb (is_unsafe c))
             (lstrip (list_ascii_of_string url)) in
  match drop_scheme l with
  | "/"%char :: "/"%char :: rest =>
      let netloc := take_netloc rest in
      if has "[" netloc && negb (has "]" netloc)
         || has "]" netloc && negb (has "[" netloc)
      then inr (Msg "Invalid IPv6 URL")
      else inl (string_of_list_ascii netloc)
  | _ => inl EmptyString
  end.

End UrlParse.

(** ** What a sequence of calls sends *)

(** The call reaches [Session.get]: [ready] always, [query] when its
    arguments pass the checks. *)
Definition sends_request (c : Call) : bool :=
  match c with
  | CallReady _ => true
  | CallQuery q _ _ d _ => valid_args q d
  end.

(** A request addressed and flagged as the client [self] does it. *)
Definition sent_by (self : LokiConnect) (r : Request) : Prop :=
  req_verify r = ssl_verification self
  ∧ (req_url r = url self +:+ "/ready"
     ∨ req_url r = url self +:+ "/loki/api/v1/query").

(** ** A sample environment for closed examples *)

Module Sample.

(** A decoder that knows two JSON texts. *)
Inductive json : Type := JObject | JArray.

Definition json_loads (s : string) : option json :=
  if (s =? "{}")%string then Some JObject
  else if (s =? "[]")%string then Some JArray
  else None.

(** A host that answers every request alike. *)
Definition host_always (r : Response) : list Request -> Request -> option Response :=
  fun _ _ => Some r.

(** A host that cannot be reached. *)
Definition host_down : list Request -> Request -> option Response :=
  fun _ _ => None.

(** [LokiConnect()] *)
Definition client : LokiConnect :=
  {| headers := None;
     url := "http://127.0.0.1:3100";
     loki_host := "127.0.0.1:3100";
     _all_metrics := tt;
     ssl_verification := true;
     ignore_http_errors := false;
     _session :=
       mkSession
         [("http://127.0.0.1:3100",
           mkHTTPAdapter (mkRetry 3 1 [408; 429; 500; 502; 503; 504]));
          ("https://", default_adapter);
          ("http://", default_adapter)] |}.

(** A fresh program state: no dictionary yet, nothing sent. *)
Definition state0 : State := mkState ∅ client [].

(** The caller holds one dictionary, [d], at reference 1. *)
Definition state_with (d : gmap string pyval) : State :=
  mkState {[ 1%positive := d ]} client [].

(** [LokiConnect(headers=d)] for the dictionary at reference 1. *)
Definition client_with_headers : LokiConnect :=
  {| headers := Some 1%positive;
     url := url client;
     loki_host := loki_host client;
     _all_metrics := tt;
     ssl_verification := true;
     ignore_http_errors := false;
     _session := _session client |}.

Definition state_with_headers (d : gmap string pyval) : State :=
  mkState {[ 1%positive := d ]} client_with_headers [].

End Sample.

(** * Proofs *)

(** ** The heap *)

Lemma deref_store_eq (st : State) (l : loc) (d : gmap string pyval) :
  deref (store st l d) l = d.
Proof. unfold deref, store; simpl. by rewrite lookup_insert_eq. Qed.

Lemma deref_store_ne (st : State) (l l' : loc) (d : gmap string pyval) :
  l ≠ l' → deref (store st l d) l' = deref st l'.
Proof. intros Hne. unfold deref, store; simpl. by rewrite lookup_insert_ne. Qed.

Lemma store_store (st : State) (l : loc) (d d' : gmap string pyval) :
  store (store st l d) l d' = store st l d'.
Proof. unfold store; simpl. by rewrite insert_insert_eq. Qed.

Lemma fresh_not_allocated (st : State) : fresh (dom (heap st)) ∉ dom (heap st).
Proof. apply is_fresh. Qed.

(** ** [params or {}] *)

Lemma or_new_dict_eq (params : option loc) (st : State) :
  or_new_dict params st = (Ok (target st params), after_or st params).
Proof.
  destruct params as [p|]; [|reflexivity].
  unfold or_new_dict, bind, dict_truthy, target, after_or; simpl.
  by destruct (bool_decide (deref st p = ∅)).
Qed.

Lemma after_or_this (st : State) (params : option loc) :
  this (after_or st params) = this st.
Proof. unfold after_or. by destruct (keeps_caller_dict st params). Qed.

Lemma after_or_trace (st : State) (params : option loc) :
  trace (after_or st params) = trace st.
Proof. unfold after_or. by destruct (keeps_caller_dict st params). Qed.

(** Whichever dictionary the call goes on with, it holds the caller's
    entries. *)
Lemma deref_after_or_target (st : State) (params : option loc) :
  deref (after_or st params) (target st params) = extras st params.
Proof.
  unfold after_or, target, extras.
  destruct params as [p|]; simpl.
  - destruct (bool_decide (deref st p = ∅)) eqn:E; simpl.
    + apply bool_decide_eq_true in E. rewrite E.
      apply (deref_store_eq st _ ∅).
    + reflexivity.
  - apply (deref_store_eq st _ ∅).
Qed.

(** An object that existed before the call is not the new dictionary. *)
Lemma after_or_heap_old (st : State) (params : option loc) (l : loc) :
  l ∈ dom (heap st) → heap (after_or st params) !! l = heap st !! l.
Proof.
  intros Hl. unfold after_or.
  destruct (keeps_caller_dict st params); [done|]. simpl.
  apply lookup_insert_ne. intros Heq.
  apply (fresh_not_allocated st). by rewrite Heq.
Qed.

Lemma target_old (st : State) (params : option loc) :
  target st params ∈ dom (heap st) →
  params = Some (target st params) ∧ keeps_caller_dict st params = true.
Proof.
  unfold target. destruct params as [p|].
  - destruct (keeps_caller_dict st (Some p)) eqn:E; [done|].
    intros H. by apply fresh_not_allocated in H.
  - intros H. by apply fresh_not_allocated in H.
Qed.

(** ** The two methods, step by step *)

Section Run.
Context {JSON : Type} (json_loads : string -> option JSON).
Variable host : list Request -> Request -> option Response.

Lemma ready_eq (params : option loc) (st : State) :
  ready host params st =
    let req := ready_request st params in
    (match session_outcome host st req with
     | Ok r => Ok (ok r)
     | Raise e => Raise e
     end,
     sent (after_or st params) req).
Proof.
  unfold ready, bind. rewrite or_new_dict_eq. unfold get_self.
  cbv beta iota. unfold Session_get. cbv beta iota zeta.
  rewrite deref_after_or_target, !after_or_this, !after_or_trace.
  unfold session_outcome, ready_request, sent, ret.
  cbn [req_url heap this trace].
  rewrite !after_or_this, !after_or_trace.
  by destruct (transport _ _ _).
Qed.

Lemma query_eq (q limit time direction : pyval) (params : option loc)
    (st : State) :
  query json_loads host q limit time direction params st =
    let st1 := after_or st params in
    let t := target st params in
    if truthy q then
      if isinstance_str q then
        if py_in_strs direction direction_supported_values then
          let req := query_request st q limit time direction params in
          (match session_outcome host st req with
           | Ok r => query_outcome json_loads (ignore_http_errors (this st)) r
           | Raise e => Raise e
           end,
           sent (store st1 t (req_params req)) req)
        else
          (Raise (ValueError (Format "Invalid direction Value: {}" [AVal direction])),
           store st1 t
             (with_limit limit (with_time time (with_query q (extras st params)))))
      else
        (Raise (TypeError (Format "Incorrect query type: {}, should be type: {}"
                             [AType (py_type q); AType TStr])),
         st1)
    else (Raise (ValueError (Msg "query empty")), st1).
Proof.
  unfold query, bind. rewrite or_new_dict_eq. cbv beta iota.
  destruct (truthy q); [|reflexivity].
  destruct (isinstance_str q); [|reflexivity]. cbv beta iota.
  change (negb true) with false. cbv beta iota.
  set (st1 := after_or st params). set (t := target st params).
  assert (Hd : deref st1 t = extras st params) by apply deref_after_or_target.
  assert (Hw : ∀ k v d, dict_setitem t k v (store st1 t d)
                        = (Ok tt, store st1 t (<[k := v]> d))).
  { intros k v d. unfold dict_setitem.
    fold (store (store st1 t d) t (<[k := v]> (deref (store st1 t d) t))).
    by rewrite deref_store_eq, store_store. }
  assert (Hq : dict_setitem t "query" q st1
               = (Ok tt, store st1 t (with_query q (extras st params)))).
  { unfold dict_setitem, with_query. by rewrite Hd. }
  rewrite Hq. cbv beta iota.
  set (d1 := with_query q (extras st params)).
  assert (Ht : when (truthy time) (dict_setitem t "time" time) (store st1 t d1)
               = (Ok tt, store st1 t (with_time time d1))).
  { unfold when, with_time. destruct (truthy time); [apply Hw|reflexivity]. }
  rewrite Ht. cbv beta iota.
  set (d2 := with_time time d1).
  assert (Hl : when (truthy limit) (dict_setitem t "limit" limit) (store st1 t d2)
               = (Ok tt, store st1 t (with_limit limit d2))).
  { unfold when, with_limit. destruct (truthy limit); [apply Hw|reflexivity]. }
  rewrite Hl. cbv beta iota.
  set (d3 := with_limit limit d2).
  destruct (py_in_strs direction direction_supported_values); [|reflexivity].
  change (negb true) with false. cbv beta iota.
  unfold ret at 1. cbv beta iota.
  rewrite Hw. cbv beta iota.
  change (<["direction" := direction]> d3)
    with (built_params q limit time direction (extras st params)).
  set (d4 := built_params q limit time direction (extras st params)).
  unfold get_self. cbv beta iota.
  assert (Hthis : this (store st1 t d4) = this st) by apply after_or_this.
  assert (Htrace : trace (store st1 t d4) = trace st) by apply after_or_trace.
  unfold Session_get. rewrite deref_store_eq, Hthis, Htrace.
  change (mkRequest (url (this st) +:+ "/loki/api/v1/query")
            (ssl_verification (this st))
            (deref_opt (store st1 t d4) (headers (this st))) d4)
    with (query_request st q limit time direction params).
  set (req := query_request st q limit time direction params).
  change (req_params req) with d4.
  assert (Hs : mkState (heap (store st1 t d4)) (this st) (trace st ++ [req])
               = sent (store st1 t d4) req).
  { unfold sent. by rewrite Hthis, Htrace. }
  rewrite Hs.
  change (transport (_session (this st)) (url (this st) +:+ "/loki/api/v1/query")
            (host (trace st) req))
    with (session_outcome host st req).
  destruct (session_outcome host st req) as [r|e]; [|reflexivity].
  cbv beta iota.
  unfold query_outcome, decoded, when, raise_for_status, Response_json, raise, ret.
  destruct (ignore_http_errors (this st)); simpl.
  - by destruct (json_loads (text r)).
  - destruct (is_client_error r || is_server_error r); simpl; [reflexivity|].
    by destruct (json_loads (text r)).
Qed.

End Run.

(** ** The exceptions of [Session.get] *)

Lemma transport_raises (s : Session) (u : string) (answer : option Response)
    (e : pyexc) :
  transport s u answer = Raise e →
  e = InvalidSchema ∨ e = ConnectionError ∨ e = RetryError.
Proof.
  unfold transport. destruct (Session_get_adapter s u) as [a|].
  - destruct answer as [r|].
    + destruct (retry_on_status _ _); [|discriminate]. intros [= <-]. auto.
    + intros [= <-]. auto.
  - intros [= <-]. auto.
Qed.

(** ** Facts about the argument checks *)

Lemma supported_direction_iff (direction : pyval) :
  py_in_strs direction direction_supported_values = true
  ↔ direction = VStr "backward" ∨ direction = VStr "forward".
Proof.
  unfold py_in_strs, direction_supported_values; simpl.
  destruct direction as [| | |s|]; simpl;
    try (split; [discriminate | intros [?|?]; discriminate]).
  rewrite !orb_true_iff, !String.eqb_eq. split.
  - intros [->|[->|?]]; [by left|by right|discriminate].
  - intros [[= ->]|[= ->]]; auto.
Qed.

Lemma valid_args_iff (q direction : pyval) :
  valid_args q direction = true
  ↔ truthy q = true ∧ isinstance_str q = true
    ∧ py_in_strs direction direction_supported_values = true.
Proof. unfold valid_args. rewrite !andb_true_iff. tauto. Qed.

Example Sample_client_constructed :
  __init__ UrlParse.urlsplit_netloc (Some default_url) None false None false
  = Ok Sample.client.
Proof. reflexivity. Qed.

(** * Properties of the client *)

(** ** Argument validation *)

(** C3: a call to [query] whose [query] argument is falsy (empty or [None])
    or is not a string raises [ValueError] or [TypeError] (the
    specification's InvalidArgument) and sends no request. *)
Theorem query_rejects_bad_query {JSON : Type} (json_loads : string -> option JSON)
    (host : list Request -> Request -> option Response)
    (q limit time direction : pyval) (params : option loc) (st : State) :
  truthy q = false ∨ isinstance_str q = false →
  ∃ e, fst (query json_loads host q limit time direction params st) = Raise e
       ∧ InvalidArgument e
       ∧ trace (snd (query json_loads host q limit time direction params st))
         = trace st.
Proof.
  intros H. rewrite query_eq. cbv zeta.
  destruct (truthy q) eqn:Hq.
  - destruct H as [H|H]; [discriminate|]. rewrite H.
    eexists. simpl. split; [reflexivity|]. split; [exact I|].
    apply after_or_trace.
  - eexists. simpl. split; [reflexivity|]. split; [exact I|].
    apply after_or_trace.
Qed.

Lemma query_rejects_bad_query_witness :
  (∃ e, fst (query Sample.json_loads (Sample.host_always (mkResponse 200 "{}"))
               (VStr EmptyString) default_limit default_time default_direction None
               Sample.state0) = Raise e
        ∧ InvalidArgument e
        ∧ trace (snd (query Sample.json_loads
                        (Sample.host_always (mkResponse 200 "{}"))
                        (VStr EmptyString) default_limit default_time default_direction
                        None Sample.state0)) = trace Sample.state0)
  ∧ (∃ e, fst (query Sample.json_loads (Sample.host_always (mkResponse 200 "{}"))
                 VNone default_limit default_time default_direction None
                 Sample.state0) = Raise e
          ∧ InvalidArgument e
          ∧ trace (snd (query Sample.json_loads
                          (Sample.host_always (mkResponse 200 "{}"))
                          VNone default_limit default_time default_direction
                          None Sample.state0)) = trace Sample.state0).
Proof.
  split; apply query_rejects_bad_query; left; reflexivity.
Defined.

(** C4: a call to [query] with a non-empty string as [query] and a
    [direction] that is neither ["backward"] nor ["forward"] raises
    [ValueError] (InvalidArgument) and sends no request. *)
Theorem query_rejects_bad_direction {JSON : Type}
    (json_loads : string -> option JSON)
    (host : list Request -> Request -> option Response)
    (q limit time direction : pyval) (params : option loc) (st : State) :
  truthy q = true → isinstance_str q = true →
  direction ≠ VStr "backward" → direction ≠ VStr "forward" →
  ∃ e, fst (query json_loads host q limit time direction params st) = Raise e
       ∧ e = ValueError (Format "Invalid direction Value: {}" [AVal direction])
       ∧ InvalidArgument e
       ∧ trace (snd (query json_loads host q limit time direction params st))
         = trace st.
Proof.
  intros Hq Hs Hb Hf. rewrite query_eq. cbv zeta. rewrite Hq, Hs.
  destruct (py_in_strs direction direction_supported_values) eqn:Hd.
  - apply supported_direction_iff in Hd. tauto.
  - eexists. simpl. split; [reflexivity|]. split; [reflexivity|].
    split; [exact I|]. apply after_or_trace.
Qed.

Lemma query_rejects_bad_direction_witness :
  ∃ e, fst (query Sample.json_loads (Sample.host_always (mkResponse 200 "{}"))
              (VStr "{job=`varlogs`}") default_limit default_time
              (VStr "sideways") None Sample.state0) = Raise e
       ∧ e = ValueError (Format "Invalid direction Value: {}" [AVal (VStr "sideways")])
       ∧ InvalidArgument e
       ∧ trace (snd (query Sample.json_loads
                       (Sample.host_always (mkResponse 200 "{}"))
                       (VStr "{job=`varlogs`}") default_limit default_time
                       (VStr "sideways") None Sample.state0))
         = trace Sample.state0.
Proof.
  apply query_rejects_bad_direction; [reflexivity|reflexivity|discriminate|discriminate].
Defined.

(** C10: when the [query] argument is falsy and not a string (0, an empty
    list, [False], [None]) the call raises [ValueError("query empty")], not
    the wrong-type error; [TypeError] is raised exactly for a truthy
    argument that is not a string. *)
Theorem empty_check_precedes_type_check {JSON : Type}
    (json_loads : string -> option JSON)
    (host : list Request -> Request -> option Response)
    (q limit time direction : pyval) (params : option loc) (st : State) :
  (truthy q = false → isinstance_str q = false →
   fst (query json_loads host q limit time direction params st)
   = Raise (ValueError (Msg "query empty")))
  ∧ ((∃ m, fst (query json_loads host q limit time direction params st)
           = Raise (TypeError m))
     ↔ truthy q = true ∧ isinstance_str q = false).
Proof.
  rewrite query_eq. cbv zeta. split.
  - intros -> _. reflexivity.
  - destruct (truthy q).
    + destruct (isinstance_str q).
      * split; [|intros [_ [=]]]. intros [m Hm]. exfalso.
        destruct (py_in_strs direction direction_supported_values);
          [|discriminate].
        cbv zeta in Hm. cbn [fst] in Hm.
        destruct (session_outcome host st _) as [r|e] eqn:E.
        -- unfold query_outcome, decoded in Hm.
           destruct (negb _ && _); [discriminate|].
           destruct (json_loads (text r)); discriminate.
        -- injection Hm as ->.
           apply transport_raises in E as [E|[E|E]]; discriminate E.
      * split; [done|]. intros _. eexists. reflexivity.
    + split; [intros [m [=]]|intros [[=] _]].
Qed.

Lemma empty_check_precedes_type_check_witness :
  fst (query Sample.json_loads (Sample.host_always (mkResponse 200 "{}"))
         (VInt 0) default_limit default_time default_direction None
         Sample.state0)
  = Raise (ValueError (Msg "query empty"))
  ∧ fst (query Sample.json_loads (Sample.host_always (mkResponse 200 "{}"))
           (VList []) default_limit default_time default_direction None
           Sample.state0)
    = Raise (ValueError (Msg "query empty"))
  ∧ ∃ m, fst (query Sample.json_loads (Sample.host_always (mkResponse 200 "{}"))
                (VInt 7) default_limit default_time default_direction None
                Sample.state0)
         = Raise (TypeError m).
Proof.
  split; [|split].
  - apply empty_check_precedes_type_check; reflexivity.
  - apply empty_check_precedes_type_check; reflexivity.
  - apply empty_check_precedes_type_check. split; reflexivity.
Defined.

(** ** The parameters [query] sends *)

Lemma built_params_query (q limit time direction : pyval) (d : gmap string pyval) :
  built_params q limit time direction d !! "query" = Some q.
Proof.
  unfold built_params, with_limit, with_time, with_query.
  destruct (truthy limit), (truthy time); by simplify_map_eq.
Qed.

Lemma built_params_direction (q limit time direction : pyval)
    (d : gmap string pyval) :
  built_params q limit time direction d !! "direction" = Some direction.
Proof. unfold built_params. by simplify_map_eq. Qed.

Lemma built_params_limit (q limit time direction : pyval) (d : gmap string pyval) :
  built_params q limit time direction d !! "limit"
  = if truthy limit then Some limit else d !! "limit".
Proof.
  unfold built_params, with_limit, with_time, with_query.
  destruct (truthy limit), (truthy time); by simplify_map_eq.
Qed.

Lemma built_params_time (q limit time direction : pyval) (d : gmap string pyval) :
  built_params q limit time direction d !! "time"
  = if truthy time then Some time else d !! "time".
Proof.
  unfold built_params, with_limit, with_time, with_query.
  destruct (truthy limit), (truthy time); by simplify_map_eq.
Qed.

Lemma built_params_other (q limit time direction : pyval) (d : gmap string pyval)
    (k : string) :
  k ∉ named_keys → built_params q limit time direction d !! k = d !! k.
Proof.
  unfold named_keys. intros Hk.
  assert (k ≠ "query" ∧ k ≠ "time" ∧ k ≠ "limit" ∧ k ≠ "direction")
    as (?&?&?&?).
  { repeat split; intros ->; apply Hk; set_solver. }
  unfold built_params, with_limit, with_time, with_query.
  destruct (truthy limit), (truthy time); by simplify_map_eq.
Qed.

Lemma built_params_keeps (q limit time direction : pyval) (d : gmap string pyval)
    (k : string) :
  is_Some (d !! k) → is_Some (built_params q limit time direction d !! k).
Proof.
  intros Hk. unfold built_params, with_limit, with_time, with_query.
  destruct (truthy limit), (truthy time);
    repeat (rewrite lookup_insert; case_decide; [eauto|]); done.
Qed.

Lemma query_trace_valid {JSON : Type} (json_loads : string -> option JSON)
    (host : list Request -> Request -> option Response)
    (q limit time direction : pyval) (params : option loc) (st : State) :
  valid_args q direction = true →
  trace (snd (query json_loads host q limit time direction params st))
  = (trace st ++ [query_request st q limit time direction params])%list.
Proof.
  intros (Hq & Hs & Hd)%valid_args_iff.
  rewrite query_eq. cbv zeta. rewrite Hq, Hs, Hd. simpl.
  by rewrite after_or_trace.
Qed.

Lemma query_result_valid {JSON : Type} (json_loads : string -> option JSON)
    (host : list Request -> Request -> option Response)
    (q limit time direction : pyval) (params : option loc) (st : State) :
  valid_args q direction = true →
  fst (query json_loads host q limit time direction params st)
  = match session_outcome host st
            (query_request st q limit time direction params) with
    | Ok r => query_outcome json_loads (ignore_http_errors (this st)) r
    | Raise e => Raise e
    end.
Proof.
  intros (Hq & Hs & Hd)%valid_args_iff.
  rewrite query_eq. cbv zeta. by rewrite Hq, Hs, Hd.
Qed.

(** C1, as amended: a call to [query] that passes validation sends one
    request whose parameters map ["query"] to the query argument and
    ["direction"] to the direction argument; ["limit"] is mapped to [limit]
    when [limit] is truthy and otherwise is present only if the caller's
    extra parameters hold it, with their value; likewise for ["time"];
    every key of the extra parameters is present, and a key that is not one
    of the four named ones keeps the caller's value. *)
Theorem query_sends_named_over_extras {JSON : Type}
    (json_loads : string -> option JSON)
    (host : list Request -> Request -> option Response)
    (q limit time direction : pyval) (params : option loc) (st : State) :
  valid_args q direction = true →
  ∃ req,
    trace (snd (query json_loads host q limit time direction params st))
    = (trace st ++ [req])%list
    ∧ req_url req = url (this st) +:+ "/loki/api/v1/query"
    ∧ req_params req !! "query" = Some q
    ∧ req_params req !! "direction" = Some direction
    ∧ req_params req !! "limit"
      = (if truthy limit then Some limit else extras st params !! "limit")
    ∧ req_params req !! "time"
      = (if truthy time then Some time else extras st params !! "time")
    ∧ (∀ k, is_Some (extras st params !! k) → is_Some (req_params req !! k))
    ∧ (∀ k, k ∉ named_keys → req_params req !! k = extras st params !! k).
Proof.
  intros Hv. exists (query_request st q limit time direction params).
  split; [by apply query_trace_valid|].
  unfold query_request; simpl.
  split; [reflexivity|].
  split; [apply built_params_query|].
  split; [apply built_params_direction|].
  split; [apply built_params_limit|].
  split; [apply built_params_time|].
  split; [intros k; apply built_params_keeps|intros k; apply built_params_other].
Qed.

Lemma query_sends_named_over_extras_witness :
  ∃ req,
    trace (snd (query Sample.json_loads (Sample.host_always (mkResponse 200 "{}"))
                  (VStr "{job=`varlogs`}") (VInt 25) VNone (VStr "forward")
                  (Some 1%positive)
                  (Sample.state_with {[ "start" := VStr "1" ]})))
    = (trace (Sample.state_with {[ "start" := VStr "1" ]}) ++ [req])%list
    ∧ req_params req !! "limit" = Some (VInt 25)
    ∧ req_params req !! "time" = None
    ∧ req_params req !! "start" = Some (VStr "1").
Proof.
  pose proof (query_sends_named_over_extras Sample.json_loads
                (Sample.host_always (mkResponse 200 "{}"))
                (VStr "{job=`varlogs`}") (VInt 25) VNone (VStr "forward")
                (Some 1%positive)
                (Sample.state_with {[ "start" := VStr "1" ]}) eq_refl) as H.
  destruct H as (req & Htr & _ & _ & _ & Hl & Ht & _ & Ho).
  exists req. split; [exact Htr|].
  rewrite Hl, Ht, Ho.
  - vm_compute. repeat split.
  - unfold named_keys. intros H.
    repeat (apply elem_of_cons in H as [H|H]; [discriminate H|]).
    by apply elem_of_nil in H.
Defined.

(** C1, as stated, fails: with [limit=0] and extra parameters that hold
    ["limit"], the request carries ["limit"] although [limit] is falsy. *)
Lemma limit_sent_though_falsy :
  valid_args (VStr "{job=`varlogs`}") (VStr "backward") = true
  ∧ truthy (VInt 0) = false
  ∧ ∃ req,
      trace (snd (query Sample.json_loads
                    (Sample.host_always (mkResponse 200 "{}"))
                    (VStr "{job=`varlogs`}") (VInt 0) VNone (VStr "backward")
                    (Some 1%positive)
                    (Sample.state_with {[ "limit" := VInt 5 ]})))
      = [req]
      ∧ req_params req !! "limit" = Some (VInt 5)
      ∧ ¬ (is_Some (req_params req !! "limit") ↔ truthy (VInt 0) = true).
Proof.
  split; [reflexivity|]. split; [reflexivity|].
  eexists. split; [vm_compute; reflexivity|].
  split; [reflexivity|].
  intros [H _]. discriminate H. eexists. reflexivity.
Qed.

(** ** Status codes *)

Lemma error_status_iff (r : Response) :
  is_client_error r || is_server_error r = true
  ↔ (400 <= status_code r < 600)%Z.
Proof.
  unfold is_client_error, is_server_error.
  rewrite orb_true_iff, !andb_true_iff, !Z.leb_le, !Z.ltb_lt. lia.
Qed.

Lemma ok_iff (r : Response) :
  ok r = true ↔ ¬ (400 <= status_code r < 600)%Z.
Proof.
  unfold ok. rewrite negb_true_iff, <- error_status_iff.
  destruct (is_client_error r || is_server_error r); split; (done || tauto).
Qed.

(** C2, as amended: for a call to [query] that sends a request and gets a
    response, when [ignore_http_errors] is false a client-error or
    server-error status (400 to 599) raises [HTTPError] with the status and
    the body; with any other status, or when [ignore_http_errors] is true
    whatever the status, the call returns the body decoded as JSON and
    raises the decoder's error when the body is not valid JSON. *)
Theorem query_raises_on_error_status_only {JSON : Type}
    (json_loads : string -> option JSON)
    (host : list Request -> Request -> option Response)
    (q limit time direction : pyval) (params : option loc) (st : State)
    (r : Response) :
  valid_args q direction = true →
  session_outcome host st (query_request st q limit time direction params)
  = Ok r →
  trace (snd (query json_loads host q limit time direction params st))
  = (trace st ++ [query_request st q limit time direction params])%list
  ∧ (ignore_http_errors (this st) = false →
     (400 <= status_code r < 600)%Z →
     fst (query json_loads host q limit time direction params st)
     = Raise (HTTPError (status_code r) (text r)))
  ∧ (ignore_http_errors (this st) = true ∨ ¬ (400 <= status_code r < 600)%Z →
     fst (query json_loads host q limit time direction params st)
     = decoded json_loads r)
  ∧ (∀ e, decoded json_loads r = Raise e ↔
          json_loads (text r) = None ∧ e = JSONDecodeError (text r)).
Proof.
  intros Hv Hr. split; [by apply query_trace_valid|].
  rewrite query_result_valid by done. rewrite Hr. unfold query_outcome, decoded.
  split; [|split].
  - intros -> Hs%error_status_iff. by rewrite Hs.
  - intros [->|Hs]; [reflexivity|].
    destruct (is_client_error r || is_server_error r) eqn:E.
    + by apply error_status_iff in E.
    + by rewrite andb_false_r.
  - intros e. destruct (json_loads (text r)); split.
    + discriminate.
    + by intros [[=] _].
    + by intros [= <-].
    + by intros [_ ->].
Qed.

Lemma query_raises_on_error_status_only_witness :
  fst (query Sample.json_loads (Sample.host_always (mkResponse 404 "{}"))
         (VStr "{job=`varlogs`}") default_limit default_time default_direction
         None Sample.state0)
  = Raise (HTTPError 404 "{}")
  ∧ fst (query Sample.json_loads (Sample.host_always (mkResponse 200 "oops"))
           (VStr "{job=`varlogs`}") default_limit default_time
           default_direction None Sample.state0)
    = Raise (JSONDecodeError "oops").
Proof.
  split.
  - pose proof (query_raises_on_error_status_only Sample.json_loads
                  (Sample.host_always (mkResponse 404 "{}"))
                  (VStr "{job=`varlogs`}") default_limit default_time
                  default_direction None Sample.state0 (mkResponse 404 "{}")
                  eq_refl eq_refl) as (_ & H & _).
    apply H; [reflexivity|simpl; lia].
  - pose proof (query_raises_on_error_status_only Sample.json_loads
                  (Sample.host_always (mkResponse 200 "oops"))
                  (VStr "{job=`varlogs`}") default_limit default_time
                  default_direction None Sample.state0 (mkResponse 200 "oops")
                  eq_refl eq_refl) as (_ & _ & H & _).
    rewrite H; [reflexivity|right; simpl; lia].
Defined.

(** C2, as stated, fails: with [ignore_http_errors] false, the status 304
    is not a 2xx status, and the call returns the decoded body. *)
Lemma non_2xx_status_without_error :
  ignore_http_errors (this Sample.state0) = false
  ∧ ¬ (200 <= status_code (mkResponse 304 "{}") < 300)%Z
  ∧ fst (query Sample.json_loads (Sample.host_always (mkResponse 304 "{}"))
           (VStr "{job=`varlogs`}") default_limit default_time
           default_direction None Sample.state0)
    = Ok Sample.JObject
  ∧ ¬ ∃ e, fst (query Sample.json_loads
                  (Sample.host_always (mkResponse 304 "{}"))
                  (VStr "{job=`varlogs`}") default_limit default_time
                  default_direction None Sample.state0) = Raise e
           ∧ HTTPStatusError e.
Proof.
  split; [reflexivity|]. split; [simpl; lia|].
  split; [reflexivity|]. intros (e & He & _). discriminate He.
Qed.

(** ** [ready] *)

(** C5, as amended: when the session delivers a response, [ready] returns
    [Response.ok]: [True] exactly when the status is not a client or server
    error (not in 400 to 599), which for an HTTP status code (100 to 599)
    is a status below 400, and [False] otherwise; it returns and does not
    raise on that status, whatever [ignore_http_errors] is. *)
Theorem ready_reports_status (host : list Request -> Request -> option Response)
    (params : option loc) (st : State) (r : Response) :
  session_outcome host st (ready_request st params) = Ok r →
  trace (snd (ready host params st))
  = (trace st ++ [ready_request st params])%list
  ∧ fst (ready host params st) = Ok (ok r)
  ∧ (ok r = true ↔ ¬ (400 <= status_code r < 600)%Z)
  ∧ ((100 <= status_code r < 600)%Z →
     (ok r = true ↔ (status_code r < 400)%Z)
     ∧ (ok r = false ↔ (400 <= status_code r)%Z)).
Proof.
  intros Hr. rewrite ready_eq. cbv zeta. rewrite Hr. simpl.
  split; [by rewrite after_or_trace|]. split; [reflexivity|].
  split; [apply ok_iff|]. intros Hs.
  destruct (ok r) eqn:E.
  - apply ok_iff in E. split; split; (done || lia).
  - assert (¬ ¬ (400 <= status_code r < 600)%Z) as Hn.
    { intros Hn%ok_iff. congruence. }
    split; split; (done || lia).
Qed.

Lemma ready_reports_status_witness :
  ignore_http_errors (this Sample.state0) = false
  ∧ fst (ready (Sample.host_always (mkResponse 200 "ready")) None Sample.state0)
    = Ok true
  ∧ fst (ready (Sample.host_always (mkResponse 404 "404 page not found"))
           None Sample.state0)
    = Ok false.
Proof.
  split; [reflexivity|]. split.
  - apply (ready_reports_status (Sample.host_always (mkResponse 200 "ready"))
             None Sample.state0 (mkResponse 200 "ready") eq_refl).
  - apply (ready_reports_status
             (Sample.host_always (mkResponse 404 "404 page not found"))
             None Sample.state0 (mkResponse 404 "404 page not found") eq_refl).
Defined.

(** C5, as stated, fails twice.  On the default client, whose retry list
    holds 503, a host that keeps answering 503 makes [ready] raise
    [RetryError] where the statement has it return [False] without raising.
    And a response with status 600, which is not below 400, makes [ready]
    return [True]. *)
Lemma ready_raises_on_503_and_accepts_600 :
  ignore_http_errors (this Sample.state0) = false
  ∧ fst (ready (Sample.host_always (mkResponse 503 "Ingester not ready"))
           None Sample.state0)
    = Raise RetryError
  ∧ fst (ready (Sample.host_always (mkResponse 503 "Ingester not ready"))
           None Sample.state0)
    ≠ Ok false
  ∧ fst (ready (Sample.host_always (mkResponse 600 "ready")) None Sample.state0)
    = Ok true
  ∧ ¬ (status_code (mkResponse 600 "ready") < 400)%Z.
Proof.
  split; [reflexivity|]. split; [reflexivity|]. split; [discriminate|].
  split; [reflexivity|]. simpl. lia.
Qed.

(** ** Construction *)

Lemma odict_get_set {V : Type} (k : string) (v : V) (d : list (string * V)) :
  odict_get k (odict_set k v d) = Some v.
Proof.
  induction d as [|[k' v'] d IH]; simpl.
  - by rewrite String.eqb_refl.
  - destruct (k' =? k)%string eqn:E; simpl.
    + by rewrite String.eqb_refl.
    + by rewrite E.
Qed.

(** Moving other keys behind a key does not change what the key maps to. *)
Lemma odict_get_filter_app {V : Type} (k : string) (p : string * V -> bool)
    (d d' : list (string * V)) (v : V) :
  (∀ kv, fst kv = k → p kv = true) →
  odict_get k d = Some v →
  odict_get k (List.filter p d ++ d') = Some v.
Proof.
  intros Hp. induction d as [|[k' v'] d IH]; simpl; [discriminate|].
  destruct (k' =? k)%string eqn:E.
  - intros [= ->]. apply String.eqb_eq in E.
    rewrite (Hp (k', v) E). simpl. apply String.eqb_eq in E. by rewrite E.
  - intros H. destruct (p (k', v')); simpl; [rewrite E|]; by apply IH.
Qed.

Lemma Session_mount_get (s : Session) (prefix : string) (a : HTTPAdapter) :
  odict_get prefix (adapters (Session_mount s prefix a)) = Some a.
Proof.
  unfold Session_mount; simpl.
  apply odict_get_filter_app; [|apply odict_get_set].
  intros [k v]; simpl; intros ->. by rewrite Nat.ltb_irrefl.
Qed.

Lemma init_ok_inv (urlparse_netloc : string -> string + pymsg)
    (u : option string) (hdrs : option loc) (disable_ssl : bool)
    (retry : option Retry) (ignore : bool) (c : LokiConnect) :
  __init__ urlparse_netloc u hdrs disable_ssl retry ignore = Ok c →
  ∃ s n, u = Some s ∧ urlparse_netloc s = inl n
         ∧ c = {| headers := hdrs; url := s; loki_host := n; _all_metrics := tt;
                  ssl_verification := negb disable_ssl;
                  ignore_http_errors := ignore;
                  _session :=
                    Session_mount Session_new s
                      (mkHTTPAdapter
                         (default (mkRetry MAX_REQUEST_RETRIES RETRY_BACKOFF_FACTOR
                                     RETRY_ON_STATUS) retry)) |}.
Proof.
  unfold __init__. destruct u as [s|]; [|discriminate].
  destruct (urlparse_netloc s) as [n|m] eqn:E; [|discriminate].
  intros [= <-]. exists s, n. by destruct retry.
Qed.



(** C8, as amended: construction raises [TypeError("missing url")] (the
    specification's ConfigurationError) if and only if the URL argument is
    [None]; for a URL string, construction succeeds if and only if
    [urlparse] accepts the string, and otherwise raises the [ValueError] of
    [urlparse]. *)
Theorem init_fails_iff_url_missing (urlparse_netloc : string -> string + pymsg)
    (u : option string) (hdrs : option loc) (disable_ssl : bool)
    (retry : option Retry) (ignore : bool) :
  ((∃ e, __init__ urlparse_netloc u hdrs disable_ssl retry ignore = Raise e
         ∧ ConfigurationError e)
   ↔ u = None)
  ∧ (∀ s, u = Some s →
       ((∃ c, __init__ urlparse_netloc u hdrs disable_ssl retry ignore = Ok c)
        ↔ ∃ n, urlparse_netloc s = inl n)
       ∧ (∀ m, urlparse_netloc s = inr m →
            __init__ urlparse_netloc u hdrs disable_ssl retry ignore
            = Raise (ValueError m))).
Proof.
  unfold ConfigurationError. split.
  - split.
    + intros (e & He & ->). destruct u as [s|]; [|reflexivity].
      simpl in He. destruct (urlparse_netloc s); discriminate.
    + intros ->. eexists. split; reflexivity.
  - intros s ->. simpl. split.
    + destruct (urlparse_netloc s) as [n|m]; split.
      * intros _. by exists n.
      * intros _. eexists. reflexivity.
      * intros [c [=]].
      * intros [n [=]].
    + intros m ->. reflexivity.
Qed.

Lemma init_fails_iff_url_missing_witness :
  (∃ e, __init__ UrlParse.urlsplit_netloc None None false None false = Raise e
        ∧ ConfigurationError e)
  ∧ ∃ c, __init__ UrlParse.urlsplit_netloc (Some default_url) None false None
           false = Ok c.
Proof.
  split.
  - apply (init_fails_iff_url_missing UrlParse.urlsplit_netloc None None false
             None false). reflexivity.
  - pose proof (init_fails_iff_url_missing UrlParse.urlsplit_netloc
                  (Some default_url) None false None false) as [_ H].
    apply (H default_url eq_refl). eexists. reflexivity.
Defined.

(** C8, as stated, fails: the URL string below is not [None], and
    construction raises the [ValueError] of [urlparse]. *)
Lemma init_fails_on_unbalanced_bracket :
  __init__ UrlParse.urlsplit_netloc (Some "http://[::1") None false None false
  = Raise (ValueError (Msg "Invalid IPv6 URL"))
  ∧ ¬ ConfigurationError (ValueError (Msg "Invalid IPv6 URL"))
  ∧ ¬ ∃ c, __init__ UrlParse.urlsplit_netloc (Some "http://[::1") None false
             None false = Ok c.
Proof.
  split; [reflexivity|]. split; [discriminate|]. intros [c [=]].
Qed.

(** ** What the calls do to the heap *)

Lemma after_or_lookup_target (st : State) (params : option loc) :
  heap (after_or st params) !! target st params = Some (extras st params).
Proof.
  unfold after_or, target, extras.
  destruct params as [p|]; simpl; [|apply lookup_insert_eq].
  unfold deref.
  destruct (bool_decide (default ∅ (heap st !! p) = ∅)) eqn:E; simpl.
  - apply bool_decide_eq_true in E. rewrite E. apply lookup_insert_eq.
  - apply bool_decide_eq_false in E.
    destruct (heap st !! p) as [d|]; [reflexivity|]. by destruct E.
Qed.

Lemma after_or_deref_ne (st : State) (params : option loc) (l : loc) :
  l ≠ target st params → deref (after_or st params) l = deref st l.
Proof.
  unfold after_or, target.
  destruct params as [p|]; simpl.
  - destruct (bool_decide (deref st p = ∅)); simpl; [|done].
    intros Hl. apply (deref_store_ne st _ l ∅). congruence.
  - intros Hl. apply (deref_store_ne st _ l ∅). congruence.
Qed.

Lemma target_not_other (st : State) (params : option loc) (l : loc) :
  l ∈ dom (heap st) → params ≠ Some l ∨ deref st l = ∅ →
  target st params ≠ l.
Proof.
  intros Hl Hp Ht. rewrite <- Ht in Hl.
  apply target_old in Hl as [Hs Hk]. rewrite Ht in Hs.
  destruct Hp as [Hp|Hp]; [done|].
  rewrite Hs in Hk. simpl in Hk. rewrite Hp in Hk.
  by rewrite bool_decide_eq_true_2 in Hk.
Qed.

Lemma with_limit_time_query_other (q limit time : pyval) (d : gmap string pyval)
    (k : string) :
  k ∉ named_keys →
  with_limit limit (with_time time (with_query q d)) !! k = d !! k.
Proof.
  unfold named_keys. intros Hk.
  assert (k ≠ "query" ∧ k ≠ "time" ∧ k ≠ "limit") as (?&?&?).
  { repeat split; intros ->; apply Hk; set_solver. }
  unfold with_limit, with_time, with_query.
  destruct (truthy limit), (truthy time); by simplify_map_eq.
Qed.

Section Frame.
Context {JSON : Type} (json_loads : string -> option JSON).
Variable host : list Request -> Request -> option Response.

Lemma ready_this (params : option loc) (st : State) :
  this (snd (ready host params st)) = this st.
Proof. rewrite ready_eq. simpl. apply after_or_this. Qed.

Lemma ready_heap (params : option loc) (st : State) :
  heap (snd (ready host params st)) = heap (after_or st params).
Proof. by rewrite ready_eq. Qed.

Lemma query_this (q limit time direction : pyval) (params : option loc)
    (st : State) :
  this (snd (query json_loads host q limit time direction params st))
  = this st.
Proof.
  rewrite query_eq. cbv zeta.
  destruct (truthy q), (isinstance_str q),
    (py_in_strs direction direction_supported_values);
    simpl; apply after_or_this.
Qed.

(** Whatever path [query] takes, the heap it leaves differs from the one
    after [params or {}] at most in the dictionary it works on, and there
    at most under the four named keys. *)
Lemma query_heap (q limit time direction : pyval) (params : option loc)
    (st : State) :
  ∃ d, heap (snd (query json_loads host q limit time direction params st))
       = <[target st params := d]> (heap (after_or st params))
       ∧ ∀ k, k ∉ named_keys → d !! k = extras st params !! k.
Proof.
  rewrite query_eq. cbv zeta.
  assert (Hid : heap (after_or st params)
                = <[target st params := extras st params]>
                    (heap (after_or st params))).
  { symmetry. apply insert_id, after_or_lookup_target. }
  destruct (truthy q); [|by exists (extras st params)].
  destruct (isinstance_str q); [|by exists (extras st params)].
  destruct (py_in_strs direction direction_supported_values).
  - eexists. split; [reflexivity|].
    intros k Hk. simpl. by apply built_params_other.
  - eexists. split; [reflexivity|].
    intros k Hk. by apply with_limit_time_query_other.
Qed.

Lemma ready_frame (params : option loc) (st : State) (l : loc) :
  l ∈ dom (heap st) → heap (snd (ready host params st)) !! l = heap st !! l.
Proof. rewrite ready_heap. apply after_or_heap_old. Qed.

Lemma query_frame (q limit time direction : pyval) (params : option loc)
    (st : State) (l : loc) :
  l ∈ dom (heap st) → params ≠ Some l ∨ deref st l = ∅ →
  heap (snd (query json_loads host q limit time direction params st)) !! l
  = heap st !! l.
Proof.
  intros Hl Hp.
  destruct (query_heap q limit time direction params st) as (d & -> & _).
  rewrite lookup_insert_ne by by apply target_not_other.
  by apply after_or_heap_old.
Qed.

Lemma query_frame_keys (q limit time direction : pyval) (l : loc)
    (st : State) (k : string) :
  k ∉ named_keys →
  deref (snd (query json_loads host q limit time direction (Some l) st)) l !! k
  = deref st l !! k.
Proof.
  intros Hk.
  destruct (query_heap q limit time direction (Some l) st) as (d & Hh & Hd).
  unfold deref at 1. rewrite Hh.
  destruct (decide (target st (Some l) = l)) as [Ht|Ht].
  - rewrite Ht, lookup_insert_eq. simpl. by apply Hd.
  - rewrite lookup_insert_ne by done.
    change (deref (after_or st (Some l)) l !! k = deref st l !! k).
    rewrite after_or_deref_ne; [done|congruence].
Qed.

Lemma ready_dom (params : option loc) (st : State) (l : loc) :
  l ∈ dom (heap st) → l ∈ dom (heap (snd (ready host params st))).
Proof.
  intros Hl. apply elem_of_dom. rewrite ready_frame by done.
  by apply elem_of_dom.
Qed.

Lemma query_dom (q limit time direction : pyval) (params : option loc)
    (st : State) (l : loc) :
  l ∈ dom (heap st) →
  l ∈ dom (heap (snd (query json_loads host q limit time direction params st))).
Proof.
  intros Hl.
  destruct (query_heap q limit time direction params st) as (d & -> & _).
  apply elem_of_dom. destruct (decide (target st params = l)) as [->|Hn].
  - rewrite lookup_insert_eq. eauto.
  - rewrite lookup_insert_ne by done. rewrite after_or_heap_old by done.
    by apply elem_of_dom.
Qed.

End Frame.

(** ** The caller's parameter dictionary *)

Lemma query_on_callers_dict {JSON : Type} (json_loads : string -> option JSON)
    (host : list Request -> Request -> option Response)
    (q limit time direction : pyval) (l : loc) (st : State) :
  valid_args q direction = true → deref st l ≠ ∅ →
  deref (snd (query json_loads host q limit time direction (Some l) st)) l
  = built_params q limit time direction (deref st l).
Proof.
  intros (Hq & Hs & Hd)%valid_args_iff Hne.
  rewrite query_eq. cbv zeta. rewrite Hq, Hs, Hd.
  assert (Ht : target st (Some l) = l).
  { unfold target; simpl. by rewrite bool_decide_eq_false_2. }
  cbn [snd]. rewrite Ht.
  unfold sent, deref, store; simpl. by rewrite lookup_insert_eq.
Qed.

(** C6, as amended: [ready] leaves every dictionary of the caller as it
    was.  [query] works on a new, empty dictionary when [params] is omitted
    or empty, and then leaves every dictionary of the caller as it was and
    sends the named arguments only, whatever earlier calls did.  Given a
    dictionary that is not empty, [query] works on that dictionary itself,
    not on a copy: dictionaries other than it are left as they were, in it
    the entries under keys other than ["query"], ["time"], ["limit"] and
    ["direction"] are left as they were, and after a call that passed
    validation it holds the parameters that were sent. *)
Theorem query_shares_callers_dict {JSON : Type}
    (json_loads : string -> option JSON)
    (host : list Request -> Request -> option Response)
    (params : option loc) (st : State) :
  (∀ l, l ∈ dom (heap st) →
        heap (snd (ready host params st)) !! l = heap st !! l)
  ∧ (∀ q limit time direction l,
        l ∈ dom (heap st) → params ≠ Some l ∨ deref st l = ∅ →
        heap (snd (query json_loads host q limit time direction params st)) !! l
        = heap st !! l)
  ∧ (∀ q limit time direction,
        valid_args q direction = true → extras st params = ∅ →
        ∃ req,
          trace (snd (query json_loads host q limit time direction params st))
          = (trace st ++ [req])%list
          ∧ req_params req = built_params q limit time direction ∅)
  ∧ (∀ q limit time direction l k,
        params = Some l → k ∉ named_keys →
        deref (snd (query json_loads host q limit time direction params st)) l
          !! k
        = deref st l !! k)
  ∧ (∀ q limit time direction l,
        params = Some l → deref st l ≠ ∅ → valid_args q direction = true →
        deref (snd (query json_loads host q limit time direction params st)) l
        = built_params q limit time direction (deref st l)).
Proof.
  split; [intros l; apply ready_frame|].
  split; [intros q limit time direction l; apply query_frame|].
  split; [|split].
  - intros q limit time direction Hv He.
    exists (query_request st q limit time direction params).
    split; [by apply query_trace_valid|].
    unfold query_request; simpl. by rewrite He.
  - intros q limit time direction l k -> Hk. by apply query_frame_keys.
  - intros q limit time direction l -> Hne Hv. by apply query_on_callers_dict.
Qed.

Lemma query_shares_callers_dict_witness :
  heap (snd (ready (Sample.host_always (mkResponse 200 "ready"))
               (Some 1%positive)
               (Sample.state_with {[ "start" := VStr "1" ]}))) !! 1%positive
  = Some {[ "start" := VStr "1" ]}
  ∧ heap (snd (query Sample.json_loads
                 (Sample.host_always (mkResponse 200 "{}"))
                 (VStr "{job=`varlogs`}") default_limit default_time
                 default_direction (Some 1%positive)
                 (Sample.state_with ∅))) !! 1%positive
    = Some ∅
  ∧ deref (snd (query Sample.json_loads
                  (Sample.host_always (mkResponse 200 "{}"))
                  (VStr "{job=`varlogs`}") default_limit default_time
                  default_direction (Some 1%positive)
                  (Sample.state_with {[ "start" := VStr "1" ]}))) 1%positive
    !! "start"
    = Some (VStr "1").
Proof.
  split; [|split].
  - pose proof (query_shares_callers_dict Sample.json_loads
                  (Sample.host_always (mkResponse 200 "ready"))
                  (Some 1%positive)
                  (Sample.state_with {[ "start" := VStr "1" ]})) as (H & _).
    rewrite H; [reflexivity|]. apply elem_of_dom. eexists. reflexivity.
  - pose proof (query_shares_callers_dict Sample.json_loads
                  (Sample.host_always (mkResponse 200 "{}"))
                  (Some 1%positive) (Sample.state_with ∅)) as (_ & H & _).
    rewrite H; [reflexivity| |right; reflexivity].
    apply elem_of_dom. eexists. reflexivity.
  - pose proof (query_shares_callers_dict Sample.json_loads
                  (Sample.host_always (mkResponse 200 "{}"))
                  (Some 1%positive)
                  (Sample.state_with {[ "start" := VStr "1" ]}))
      as (_ & _ & _ & H & _).
    rewrite H; [reflexivity|reflexivity|].
    unfold named_keys. intros Hk.
    repeat (apply elem_of_cons in Hk as [Hk|Hk]; [discriminate Hk|]).
    by apply elem_of_nil in Hk.
Defined.

(** C6, as stated, fails: [query] adds keys to the dictionary the caller
    passed, and a second call with the same dictionary sends the ["time"]
    that only the first call was given. *)
Lemma query_writes_callers_dict :
  deref (Sample.state_with {[ "start" := VStr "1" ]}) 1%positive !! "query"
  = None
  ∧ deref (snd (query Sample.json_loads
                  (Sample.host_always (mkResponse 200 "{}"))
                  (VStr "{job=`varlogs`}") default_limit (VStr "1700000000")
                  default_direction (Some 1%positive)
                  (Sample.state_with {[ "start" := VStr "1" ]}))) 1%positive
    !! "query"
    = Some (VStr "{job=`varlogs`}")
  ∧ ∃ req1 req2,
      trace (snd (query Sample.json_loads
                    (Sample.host_always (mkResponse 200 "{}"))
                    (VStr "{job=`nginx`}") default_limit default_time
                    default_direction (Some 1%positive)
                    (snd (query Sample.json_loads
                            (Sample.host_always (mkResponse 200 "{}"))
                            (VStr "{job=`varlogs`}") default_limit
                            (VStr "1700000000") default_direction
                            (Some 1%positive)
                            (Sample.state_with {[ "start" := VStr "1" ]})))))
      = [req1; req2]
      ∧ truthy default_time = false
      ∧ req_params req2 !! "time" = Some (VStr "1700000000").
Proof.
  split; [reflexivity|]. split; [vm_compute; reflexivity|].
  eexists _, _. split; [vm_compute; reflexivity|].
  split; reflexivity.
Qed.

(** ** The client over a sequence of calls *)

Section Sequences.
Context {JSON : Type} (json_loads : string -> option JSON).
Variable host : list Request -> Request -> option Response.

Lemma run_call_this (c : Call) (st : State) :
  this (run_call json_loads host c st) = this st.
Proof. destruct c; simpl; [apply ready_this|apply query_this]. Qed.

Lemma run_call_dom (c : Call) (st : State) (l : loc) :
  l ∈ dom (heap st) → l ∈ dom (heap (run_call json_loads host c st)).
Proof. destruct c; simpl; [apply ready_dom|apply query_dom]. Qed.

Lemma run_call_frame (c : Call) (st : State) (l : loc) :
  l ∈ dom (heap st) →
  ¬ passes_headers_as_params (this st) c → headers (this st) = Some l →
  heap (run_call json_loads host c st) !! l = heap st !! l.
Proof.
  intros Hl Hc Hh. destruct c as [p|q limit time direction p]; simpl.
  - by apply ready_frame.
  - apply query_frame; [done|]. left. intros ->. by apply Hc.
Qed.

Lemma run_calls_cons (c : Call) (cs : list Call) (st : State) :
  run_calls json_loads host (c :: cs) st
  = run_calls json_loads host cs (run_call json_loads host c st).
Proof. reflexivity. Qed.

Lemma run_calls_this (cs : list Call) (st : State) :
  this (run_calls json_loads host cs st) = this st.
Proof.
  revert st. induction cs as [|c cs IH]; intros st; [reflexivity|].
  rewrite run_calls_cons, IH. apply run_call_this.
Qed.

Lemma run_calls_headers (cs : list Call) (st : State) (l : loc) :
  headers (this st) = Some l → l ∈ dom (heap st) →
  Forall (fun c => ¬ passes_headers_as_params (this st) c) cs →
  heap (run_calls json_loads host cs st) !! l = heap st !! l.
Proof.
  revert st. induction cs as [|c cs IH]; intros st Hh Hl Hcs; [reflexivity|].
  apply Forall_cons in Hcs as [Hc Hcs].
  rewrite run_calls_cons, IH.
  - by apply run_call_frame.
  - by rewrite run_call_this.
  - by apply run_call_dom.
  - by rewrite run_call_this.
Qed.

End Sequences.

(** C9, as amended: no sequence of [ready] and [query] calls changes an
    attribute of the client, whether the calls return or raise; the
    contents of the header dictionary stay as they were too, as long as no
    call hands [query], as its [params], the very dictionary the client
    holds as headers. *)
Theorem calls_keep_configuration {JSON : Type}
    (json_loads : string -> option JSON)
    (host : list Request -> Request -> option Response)
    (cs : list Call) (st : State) :
  this (run_calls json_loads host cs st) = this st
  ∧ ((∀ l, headers (this st) = Some l → l ∈ dom (heap st)) →
     Forall (fun c => ¬ passes_headers_as_params (this st) c) cs →
     deref_opt (run_calls json_loads host cs st) (headers (this st))
     = deref_opt st (headers (this st))).
Proof.
  split; [apply run_calls_this|].
  intros Hlive Hcs. unfold deref_opt, deref.
  destruct (headers (this st)) as [l|] eqn:Hh; [|reflexivity]. simpl.
  by rewrite (run_calls_headers json_loads host cs st l Hh (Hlive l eq_refl) Hcs).
Qed.

Lemma calls_keep_configuration_witness :
  this (run_calls Sample.json_loads (Sample.host_always (mkResponse 503 "{}"))
          [CallReady None;
           CallQuery (VStr "{job=`varlogs`}") default_limit default_time
             default_direction None;
           CallQuery (VInt 0) default_limit default_time default_direction None]
          (Sample.state_with_headers {[ "Authorization" := VStr "Bearer t" ]}))
  = Sample.client_with_headers
  ∧ deref_opt
      (run_calls Sample.json_loads (Sample.host_always (mkResponse 503 "{}"))
         [CallReady None;
          CallQuery (VStr "{job=`varlogs`}") default_limit default_time
            default_direction None;
          CallQuery (VInt 0) default_limit default_time default_direction None]
         (Sample.state_with_headers {[ "Authorization" := VStr "Bearer t" ]}))
      (Some 1%positive)
    = Some {[ "Authorization" := VStr "Bearer t" ]}.
Proof.
  pose proof (calls_keep_configuration Sample.json_loads
                (Sample.host_always (mkResponse 503 "{}"))
                [CallReady None;
                 CallQuery (VStr "{job=`varlogs`}") default_limit default_time
                   default_direction None;
                 CallQuery (VInt 0) default_limit default_time
                   default_direction None]
                (Sample.state_with_headers
                   {[ "Authorization" := VStr "Bearer t" ]})) as [Hthis Hmap].
  split; [exact Hthis|].
  change (Some 1%positive)
    with (headers (this (Sample.state_with_headers
                           {[ "Authorization" := VStr "Bearer t" ]}))) at 1.
  rewrite Hmap; [reflexivity| |].
  - intros l [= <-]. apply elem_of_dom. eexists. reflexivity.
  - repeat constructor; simpl; tauto.
Defined.

(** C9, as stated, fails: a client constructed with a header dictionary and
    a call to [query] that is given the same dictionary as [params]; after
    the call the header dictionary holds the query parameters. *)
Lemma query_writes_header_dict :
  __init__ UrlParse.urlsplit_netloc (Some default_url) (Some 1%positive) false
    None false
  = Ok Sample.client_with_headers
  ∧ deref_opt (Sample.state_with_headers {[ "Authorization" := VStr "Bearer t" ]})
      (headers Sample.client_with_headers)
    = Some {[ "Authorization" := VStr "Bearer t" ]}
  ∧ deref_opt
      (run_calls Sample.json_loads (Sample.host_always (mkResponse 200 "{}"))
         [CallQuery (VStr "{job=`varlogs`}") default_limit default_time
            default_direction (Some 1%positive)]
         (Sample.state_with_headers {[ "Authorization" := VStr "Bearer t" ]}))
      (headers Sample.client_with_headers)
    = Some (<["direction" := VStr "backward"]>
              (<["limit" := VInt 10]>
                 (<["query" := VStr "{job=`varlogs`}"]>
                    {[ "Authorization" := VStr "Bearer t" ]})))
  ∧ deref_opt
      (run_calls Sample.json_loads (Sample.host_always (mkResponse 200 "{}"))
         [CallQuery (VStr "{job=`varlogs`}") default_limit default_time
            default_direction (Some 1%positive)]
         (Sample.state_with_headers {[ "Authorization" := VStr "Bearer t" ]}))
      (headers Sample.client_with_headers)
    ≠ deref_opt
        (Sample.state_with_headers {[ "Authorization" := VStr "Bearer t" ]})
        (headers Sample.client_with_headers).
Proof.
  split; [reflexivity|]. split; [reflexivity|].
  split; [vm_compute; reflexivity|].
  intros H.
  assert (Hq : ∀ a b : option (gmap string pyval), a = b →
               (a ≫= (.!! "query")) = (b ≫= (.!! "query"))) by by intros ?? ->.
  apply Hq in H. vm_compute in H. discriminate H.
Qed.

(** * Further properties *)

(** ** The request of [ready] *)

(** [params or {}] changes the contents of no dictionary. *)
Lemma deref_after_or (st : State) (params : option loc) (l : loc) :
  deref (after_or st params) l = deref st l.
Proof.
  destruct (decide (l = target st params)) as [->|Hne];
    [|by apply after_or_deref_ne].
  rewrite deref_after_or_target. unfold target, extras.
  destruct params as [p|]; simpl.
  - destruct (bool_decide (deref st p = ∅)) eqn:E; simpl; [|done].
    apply bool_decide_eq_true in E. rewrite E.
    unfold deref. destruct (heap st !! fresh (dom (heap st))) eqn:Hf; [|done].
    exfalso. apply (fresh_not_allocated st), elem_of_dom. eauto.
  - unfold deref. destruct (heap st !! fresh (dom (heap st))) eqn:Hf; [|done].
    exfalso. apply (fresh_not_allocated st), elem_of_dom. eauto.
Qed.

Lemma ready_sends_callers_params_aux
    (host : list Request -> Request -> option Response)
    (params : option loc) (st : State) :
  ∃ req,
    trace (snd (ready host params st)) = (trace st ++ [req])%list
    ∧ req_headers req = deref_opt st (headers (this st)).
Proof.
  exists (ready_request st params). rewrite ready_eq. cbv zeta.
  split; [simpl; by rewrite after_or_trace|].
  unfold ready_request; simpl.
  unfold deref_opt. destruct (headers (this st)); simpl; [|done].
  by rewrite deref_after_or.
Qed.

(** X1: [ready] sends one GET to the client's URL followed by [/ready],
    with the client's [verify] flag, the contents of the client's header
    dictionary, and as parameters the entries the caller passed, no more
    and no fewer (none when [params] is omitted). *)
Theorem ready_sends_callers_params
    (host : list Request -> Request -> option Response)
    (params : option loc) (st : State) :
  ∃ req,
    trace (snd (ready host params st)) = (trace st ++ [req])%list
    ∧ req_url req = url (this st) +:+ "/ready"
    ∧ req_verify req = ssl_verification (this st)
    ∧ req_headers req = deref_opt st (headers (this st))
    ∧ req_params req = extras st params.
Proof.
  exists (ready_request st params). rewrite ready_eq. cbv zeta.
  split; [simpl; by rewrite after_or_trace|].
  unfold ready_request; simpl. repeat split.
  unfold deref_opt. destruct (headers (this st)); simpl; [|done].
  by rewrite deref_after_or.
Qed.

(** ** Exceptions of the session *)

(** X2: [ready] and [query] catch nothing.  [ready] raises exactly when
    [Session.get] raises, and then the same exception: it does not turn it
    into [False].  [query] with valid arguments raises whatever
    [Session.get] raises, whether [ignore_http_errors] is set or not.  An
    unreachable host so gives [ConnectionError], and retries that run out
    on a status of the retry list give [RetryError]. *)
Theorem transport_failure_propagates {JSON : Type}
    (json_loads : string -> option JSON)
    (host : list Request -> Request -> option Response)
    (q limit time direction : pyval) (params : option loc) (st : State)
    (e : pyexc) :
  (fst (ready host params st) = Raise e
   ↔ session_outcome host st (ready_request st params) = Raise e)
  ∧ (valid_args q direction = true →
     session_outcome host st (query_request st q limit time direction params)
     = Raise e →
     fst (query json_loads host q limit time direction params st) = Raise e).
Proof.
  split.
  - rewrite ready_eq. cbv zeta. cbn [fst].
    destruct (session_outcome host st (ready_request st params)) as [r|e'].
    + split; discriminate.
    + split; by intros [= ->].
  - intros Hv He. rewrite query_result_valid by done. by rewrite He.
Qed.

Lemma transport_failure_propagates_witness :
  fst (ready Sample.host_down None Sample.state0) = Raise ConnectionError
  ∧ fst (ready (Sample.host_always (mkResponse 503 "Ingester not ready")) None
           Sample.state0)
    = Raise RetryError
  ∧ fst (query Sample.json_loads Sample.host_down (VStr "{job=`varlogs`}")
           default_limit default_time default_direction None Sample.state0)
    = Raise ConnectionError.
Proof.
  split; [|split].
  - apply (transport_failure_propagates Sample.json_loads Sample.host_down
             VNone VNone VNone VNone None Sample.state0 ConnectionError).
    reflexivity.
  - apply (transport_failure_propagates Sample.json_loads
             (Sample.host_always (mkResponse 503 "Ingester not ready"))
             VNone VNone VNone VNone None Sample.state0 RetryError).
    reflexivity.
  - apply (transport_failure_propagates Sample.json_loads Sample.host_down
             (VStr "{job=`varlogs`}") default_limit default_time
             default_direction None Sample.state0 ConnectionError);
      reflexivity.
Defined.

(** ** Rejected calls and the caller's dictionary *)

(** X3: a call to [query] that is rejected for its [query] argument has
    written nothing: every dictionary that existed before the call, the one
    passed as [params] included, has the contents it had. *)
Theorem rejected_query_writes_nothing {JSON : Type}
    (json_loads : string -> option JSON)
    (host : list Request -> Request -> option Response)
    (q limit time direction : pyval) (params : option loc) (st : State)
    (l : loc) :
  truthy q = false ∨ isinstance_str q = false →
  l ∈ dom (heap st) →
  heap (snd (query json_loads host q limit time direction params st)) !! l
  = heap st !! l.
Proof.
  intros Hq Hl. rewrite query_eq. cbv zeta.
  destruct (truthy q) eqn:Et.
  - destruct Hq as [Hq|Hq]; [discriminate|]. rewrite Hq. simpl.
    by apply after_or_heap_old.
  - simpl. by apply after_or_heap_old.
Qed.

Lemma rejected_query_writes_nothing_witness :
  heap (snd (query Sample.json_loads (Sample.host_always (mkResponse 200 "{}"))
               (VInt 7) default_limit (VStr "1700000000") default_direction
               (Some 1%positive)
               (Sample.state_with {[ "start" := VStr "1" ]}))) !! 1%positive
  = Some {[ "start" := VStr "1" ]}.
Proof.
  rewrite (rejected_query_writes_nothing Sample.json_loads
             (Sample.host_always (mkResponse 200 "{}"))
             (VInt 7) default_limit (VStr "1700000000") default_direction
             (Some 1%positive) (Sample.state_with {[ "start" := VStr "1" ]})
             1%positive).
  - reflexivity.
  - right. reflexivity.
  - apply elem_of_dom. eexists. reflexivity.
Defined.

(** X4: a call to [query] that is rejected for its [direction] has already
    written to a non-empty dictionary passed as [params]: the dictionary
    holds ["query"], and ["time"] and ["limit"] when those arguments are
    truthy, while ["direction"] is as the caller left it. *)
Theorem bad_direction_leaves_writes {JSON : Type}
    (json_loads : string -> option JSON)
    (host : list Request -> Request -> option Response)
    (q limit time direction : pyval) (l : loc) (st : State) :
  truthy q = true → isinstance_str q = true →
  py_in_strs direction direction_supported_values = false →
  deref st l ≠ ∅ →
  deref (snd (query json_loads host q limit time direction (Some l) st)) l
  = with_limit limit (with_time time (with_query q (deref st l)))
  ∧ deref (snd (query json_loads host q limit time direction (Some l) st)) l
      !! "query" = Some q
  ∧ deref (snd (query json_loads host q limit time direction (Some l) st)) l
      !! "direction" = deref st l !! "direction".
Proof.
  intros Hq Hs Hd Hne.
  assert (Ht : target st (Some l) = l).
  { unfold target; simpl. by rewrite bool_decide_eq_false_2. }
  assert (He : deref (snd (query json_loads host q limit time direction
                             (Some l) st)) l
               = with_limit limit (with_time time (with_query q (deref st l)))).
  { rewrite query_eq. cbv zeta. rewrite Hq, Hs, Hd. cbn [snd].
    rewrite Ht. apply deref_store_eq. }
  rewrite He. split; [reflexivity|].
  unfold with_limit, with_time, with_query.
  split; destruct (truthy limit), (truthy time); by simplify_map_eq.
Qed.

Lemma bad_direction_leaves_writes_witness :
  deref (snd (query Sample.json_loads (Sample.host_always (mkResponse 200 "{}"))
                (VStr "{job=`varlogs`}") default_limit default_time
                (VStr "sideways") (Some 1%positive)
                (Sample.state_with {[ "start" := VStr "1" ]}))) 1%positive
    !! "query"
  = Some (VStr "{job=`varlogs`}").
Proof.
  apply (bad_direction_leaves_writes Sample.json_loads
           (Sample.host_always (mkResponse 200 "{}"))
           (VStr "{job=`varlogs`}") default_limit default_time
           (VStr "sideways") 1%positive
           (Sample.state_with {[ "start" := VStr "1" ]}));
    [reflexivity|reflexivity|reflexivity|].
  intros H. apply (f_equal (fun m : gmap string pyval => m !! "start")) in H.
  vm_compute in H. discriminate H.
Defined.

(** ** A retry policy of the caller *)

(** X5: a client constructed with a retry policy has, mounted on its URL,
    an adapter with that policy as given; the module's default constants
    play no part. *)
Theorem init_keeps_supplied_retry (urlparse_netloc : string -> string + pymsg)
    (u : option string) (hdrs : option loc) (disable_ssl ignore : bool)
    (retry : Retry) (c : LokiConnect) :
  __init__ urlparse_netloc u hdrs disable_ssl (Some retry) ignore = Ok c →
  odict_get (url c) (adapters (_session c)) = Some (mkHTTPAdapter retry).
Proof.
  intros (s & n & -> & _ & ->)%init_ok_inv. cbn [url _session default].
  apply Session_mount_get.
Qed.

Lemma init_keeps_supplied_retry_witness :
  ∃ c, __init__ UrlParse.urlsplit_netloc (Some default_url) None false
         (Some (mkRetry 5 2 [503])) false = Ok c
       ∧ odict_get (url c) (adapters (_session c))
         = Some (mkHTTPAdapter (mkRetry 5 2 [503])).
Proof.
  eexists. split; [reflexivity|].
  apply (init_keeps_supplied_retry UrlParse.urlsplit_netloc (Some default_url)
           None false false (mkRetry 5 2 [503])).
  reflexivity.
Defined.

(** ** The adapter that serves the client's requests *)

Lemma prefix_append (s t : string) : String.prefix s (s +:+ t) = true.
Proof.
  induction s as [|c s IH]; simpl; [by destruct t|].
  by destruct (Ascii.ascii_dec c c).
Qed.

Lemma str_lower_append (s t : string) :
  str_lower (s +:+ t) = str_lower s +:+ str_lower t.
Proof. induction s as [|c s IH]; simpl; [done|by rewrite IH]. Qed.

Lemma eqb_length_ne (s t : string) :
  String.length s ≠ String.length t → (s =? t)%string = false.
Proof. intros Hne. apply String.eqb_neq. by intros ->. Qed.

(** A URL longer than both default prefixes is mounted in front of them. *)
Lemma Session_mount_long (u : string) (a : HTTPAdapter) :
  (8 < String.length u)%nat →
  adapters (Session_mount Session_new u a)
  = [(u, a); ("https://", default_adapter); ("http://", default_adapter)].
Proof.
  intros Hlen. unfold Session_mount, Session_new. cbn [adapters odict_set].
  rewrite (eqb_length_ne "https://" u) by (simpl; lia).
  rewrite (eqb_length_ne "http://" u) by (simpl; lia).
  cbn [List.filter fst].
  assert ((String.length "https://" <? String.length u)%nat = true) as ->
    by (apply Nat.ltb_lt; simpl; lia).
  assert ((String.length "http://" <? String.length u)%nat = true) as ->
    by (apply Nat.ltb_lt; simpl; lia).
  rewrite Nat.ltb_irrefl. reflexivity.
Qed.

(** X6: for a client constructed on an ASCII URL of more than eight
    characters, the session's adapter lookup gives, for the URL followed by
    any path (the URLs [ready] and [query] request), the adapter that
    carries the client's retry policy: the one supplied, or the default
    one. *)
Theorem client_requests_use_retry_adapter
    (urlparse_netloc : string -> string + pymsg)
    (u : string) (hdrs : option loc) (disable_ssl ignore : bool)
    (retry : option Retry) (c : LokiConnect) (path : string) :
  __init__ urlparse_netloc (Some u) hdrs disable_ssl retry ignore = Ok c →
  is_ascii_text u → (8 < String.length u)%nat →
  Session_get_adapter (_session c) (url c +:+ path)
  = Some (mkHTTPAdapter
            (default (mkRetry MAX_REQUEST_RETRIES RETRY_BACKOFF_FACTOR
                        RETRY_ON_STATUS) retry)).
Proof.
  intros (s & n & [= <-] & _ & ->)%init_ok_inv _ Hlen.
  unfold Session_get_adapter. cbn [url _session].
  rewrite Session_mount_long by done. cbn [find_adapter].
  by rewrite str_lower_append, prefix_append.
Qed.

Lemma client_requests_use_retry_adapter_witness :
  Session_get_adapter (_session Sample.client) (url Sample.client +:+ "/ready")
  = Some (mkHTTPAdapter (mkRetry 3 1 [408; 429; 500; 502; 503; 504]))
  ∧ Session_get_adapter (_session Sample.client)
      (url Sample.client +:+ "/loki/api/v1/query")
    = Some (mkHTTPAdapter (mkRetry 3 1 [408; 429; 500; 502; 503; 504])).
Proof.
  split;
    apply (client_requests_use_retry_adapter UrlParse.urlsplit_netloc
             default_url None false false None Sample.client);
    try reflexivity; try (simpl; lia);
    unfold is_ascii_text; simpl; repeat constructor; simpl; lia.
Defined.

(** ** The default call *)

(** X7: [query] called with a non-empty string and nothing else sends
    exactly three parameters: the query, [limit] 10 and [direction]
    ["backward"]; there is no ["time"]. *)
Theorem default_query_params {JSON : Type}
    (json_loads : string -> option JSON)
    (host : list Request -> Request -> option Response)
    (q : pyval) (st : State) :
  truthy q = true → isinstance_str q = true →
  ∃ req,
    trace (snd (query json_loads host q default_limit default_time
                  default_direction None st))
    = (trace st ++ [req])%list
    ∧ req_params req
      = <["direction" := VStr "backward"]>
          (<["limit" := VInt 10]> {[ "query" := q ]})
    ∧ req_params req !! "time" = None.
Proof.
  intros Hq Hs.
  assert (Hv : valid_args q default_direction = true).
  { unfold valid_args. by rewrite Hq, Hs. }
  exists (query_request st q default_limit default_time default_direction None).
  split; [by apply query_trace_valid|].
  unfold query_request, built_params, with_limit, with_time, with_query,
    default_limit, default_time, default_direction, extras; simpl.
  rewrite insert_empty. split; [reflexivity|]. by simplify_map_eq.
Qed.

Lemma default_query_params_witness :
  ∃ req,
    trace (snd (query Sample.json_loads
                  (Sample.host_always (mkResponse 200 "{}"))
                  (VStr "{job=`varlogs`}") default_limit default_time
                  default_direction None Sample.state0))
    = (trace Sample.state0 ++ [req])%list
    ∧ req_params req
      = <["direction" := VStr "backward"]>
          (<["limit" := VInt 10]> {[ "query" := VStr "{job=`varlogs`}" ]})
    ∧ req_params req !! "time" = None.
Proof.
  apply (default_query_params Sample.json_loads
           (Sample.host_always (mkResponse 200 "{}"))
           (VStr "{job=`varlogs`}") Sample.state0); reflexivity.
Defined.

(** ** The requests of a sequence of calls *)

Section Traces.
Context {JSON : Type} (json_loads : string -> option JSON).
Variable host : list Request -> Request -> option Response.

(** One call adds one request when it reaches [Session.get], none
    otherwise; what it adds is addressed and flagged by the client. *)
Lemma run_call_trace (c : Call) (st : State) :
  ∃ new, trace (run_call json_loads host c st) = (trace st ++ new)%list
         ∧ length new = (if sends_request c then 1 else 0)%nat
         ∧ Forall (sent_by (this st)) new.
Proof.
  destruct c as [p|q limit time direction p]; simpl.
  - exists [ready_request st p]. rewrite ready_eq. cbv zeta. simpl.
    rewrite after_or_trace. split; [done|]. split; [done|].
    constructor; [|constructor]. split; [done|by left].
  - rewrite query_eq. cbv zeta. unfold valid_args.
    assert (Hno : ∀ st', trace st' = trace st →
                  ∃ new, trace st' = (trace st ++ new)%list
                         ∧ length new = 0%nat
                         ∧ Forall (sent_by (this st)) new).
    { intros st' ->. exists []. by rewrite app_nil_r. }
    destruct (truthy q); cbn [snd andb]; [|apply Hno, after_or_trace].
    destruct (isinstance_str q); cbn [snd andb]; [|apply Hno, after_or_trace].
    destruct (py_in_strs direction direction_supported_values); cbn [snd];
      [|apply Hno, after_or_trace].
    exists [query_request st q limit time direction p].
    unfold sent; cbn [trace store]. rewrite after_or_trace.
    split; [done|]. split; [done|].
    constructor; [|constructor]. split; [done|by right].
Qed.

Lemma run_calls_trace (cs : list Call) (st : State) :
  ∃ new, trace (run_calls json_loads host cs st) = (trace st ++ new)%list
         ∧ length new = length (List.filter sends_request cs)
         ∧ Forall (sent_by (this st)) new.
Proof.
  revert st. induction cs as [|c cs IH]; intros st.
  - exists []. by rewrite app_nil_r.
  - rewrite run_calls_cons.
    destruct (run_call_trace c st) as (new1 & Ht1 & Hl1 & Hf1).
    destruct (IH (run_call json_loads host c st)) as (new2 & Ht2 & Hl2 & Hf2).
    rewrite run_call_this in Hf2.
    exists (new1 ++ new2)%list. rewrite Ht2, Ht1, <- app_assoc.
    split; [done|]. split; [|by apply Forall_app].
    rewrite length_app, Hl1, Hl2. simpl.
    by destruct (sends_request c).
Qed.

End Traces.

(** X8: over any sequence of [ready] and [query] calls, requests are only
    added to those sent before, and the number added is the number of
    [ready] calls plus the number of [query] calls whose arguments pass the
    checks: one request per such call, none for a rejected call. *)
Theorem calls_send_one_request_each {JSON : Type}
    (json_loads : string -> option JSON)
    (host : list Request -> Request -> option Response)
    (cs : list Call) (st : State) :
  ∃ new,
    trace (run_calls json_loads host cs st) = (trace st ++ new)%list
    ∧ length new = length (List.filter sends_request cs).
Proof.
  destruct (run_calls_trace json_loads host cs st) as (new & Ht & Hl & _).
  by exists new.
Qed.

(** X9: every request that a client constructed with [disable_ssl] sends,
    over any sequence of calls, has [verify] equal to [not disable_ssl] and
    goes to the constructor's URL followed by [/ready] or by
    [/loki/api/v1/query]. *)
Theorem constructed_client_requests {JSON : Type}
    (json_loads : string -> option JSON)
    (host : list Request -> Request -> option Response)
    (urlparse_netloc : string -> string + pymsg)
    (u : string) (hdrs : option loc) (disable_ssl ignore : bool)
    (retry : option Retry) (cs : list Call) (st : State) :
  __init__ urlparse_netloc (Some u) hdrs disable_ssl retry ignore
  = Ok (this st) →
  ∃ new,
    trace (run_calls json_loads host cs st) = (trace st ++ new)%list
    ∧ Forall (fun r => req_verify r = negb disable_ssl
                       ∧ (req_url r = u +:+ "/ready"
                          ∨ req_url r = u +:+ "/loki/api/v1/query")) new.
Proof.
  intros (s & n & [= <-] & _ & Hc)%init_ok_inv.
  destruct (run_calls_trace json_loads host cs st) as (new & Ht & _ & Hf).
  exists new. split; [done|].
  unfold sent_by in Hf. by rewrite Hc in Hf.
Qed.

Lemma constructed_client_requests_witness :
  ∃ new,
    trace (run_calls Sample.json_loads (Sample.host_always (mkResponse 200 "{}"))
             [CallReady None;
              CallQuery (VStr "{job=`varlogs`}") default_limit default_time
                default_direction None]
             Sample.state0)
    = (trace Sample.state0 ++ new)%list
    ∧ Forall (fun r => req_verify r = negb false
                       ∧ (req_url r = default_url +:+ "/ready"
                          ∨ req_url r = default_url +:+ "/loki/api/v1/query"))
        new.
Proof.
  apply (constructed_client_requests Sample.json_loads
           (Sample.host_always (mkResponse 200 "{}")) UrlParse.urlsplit_netloc
           default_url None false false None).
  reflexivity.
Defined.

(** ** The header dictionary is read at each call *)

(** X10: the client holds the caller's header dictionary, not a copy of
    it: when the caller has replaced the contents of that dictionary, the
    next [ready], and the next valid [query] whose [params] is another
    object, send the new contents as headers. *)
Theorem headers_read_at_call {JSON : Type}
    (json_loads : string -> option JSON)
    (host : list Request -> Request -> option Response)
    (q limit time direction : pyval) (params : option loc) (st : State)
    (h : loc) (d : gmap string pyval) :
  headers (this st) = Some h →
  (∃ req, trace (snd (ready host params (store st h d)))
          = (trace st ++ [req])%list
          ∧ req_headers req = Some d)
  ∧ (valid_args q direction = true → params ≠ Some h →
     ∃ req, trace (snd (query json_loads host q limit time direction params
                          (store st h d)))
            = (trace st ++ [req])%list
            ∧ req_headers req = Some d).
Proof.
  intros Hh. split.
  - destruct (ready_sends_callers_params_aux host params (store st h d))
      as (req & Ht & Hhd).
    exists req. split; [exact Ht|]. rewrite Hhd. simpl. rewrite Hh. simpl.
    by rewrite deref_store_eq.
  - intros Hv Hp.
    exists (query_request (store st h d) q limit time direction params).
    split; [by rewrite query_trace_valid|].
    unfold query_request. cbn [req_headers this store]. rewrite Hh.
    unfold deref_opt. simpl. f_equal.
    assert (Hin : h ∈ dom (heap (store st h d))).
    { apply elem_of_dom. unfold store; simpl. rewrite lookup_insert_eq. eauto. }
    rewrite deref_store_ne.
    + rewrite deref_after_or. apply deref_store_eq.
    + apply target_not_other; [done|by left].
Qed.

Lemma headers_read_at_call_witness :
  ∃ req,
    trace (snd (ready (Sample.host_always (mkResponse 200 "ready")) None
                  (store (Sample.state_with_headers
                            {[ "Authorization" := VStr "Bearer old" ]})
                     1%positive {[ "Authorization" := VStr "Bearer new" ]})))
    = (trace (Sample.state_with_headers
                {[ "Authorization" := VStr "Bearer old" ]}) ++ [req])%list
    ∧ req_headers req = Some {[ "Authorization" := VStr "Bearer new" ]}.
Proof.
  apply (headers_read_at_call Sample.json_loads
           (Sample.host_always (mkResponse 200 "ready"))
           VNone VNone VNone VNone None
           (Sample.state_with_headers
              {[ "Authorization" := VStr "Bearer old" ]})
           1%positive {[ "Authorization" := VStr "Bearer new" ]}).
  reflexivity.
Defined.

(** ** Repeating a call on the same dictionary *)

Lemma built_params_nonempty (q limit time direction : pyval)
    (d : gmap string pyval) :
  built_params q limit time direction d ≠ ∅.
Proof.
  intros H. apply (f_equal (fun m : gmap string pyval => m !! "query")) in H.
  rewrite built_params_query, lookup_empty in H. discriminate H.
Qed.

(** Writing the same named arguments a second time changes nothing. *)
Lemma built_params_idem (q limit time direction : pyval)
    (d : gmap string pyval) :
  built_params q limit time direction (built_params q limit time direction d)
  = built_params q limit time direction d.
Proof.
  apply map_eq. intros k.
  destruct (decide (k = "query")) as [->|Hq];
    [by rewrite !built_params_query|].
  destruct (decide (k = "direction")) as [->|Hd];
    [by rewrite !built_params_direction|].
  destruct (decide (k = "limit")) as [->|Hl].
  { rewrite (built_params_limit q limit time direction
               (built_params q limit time direction d)).
    destruct (truthy limit) eqn:E; [|reflexivity].
    by rewrite built_params_limit, E. }
  destruct (decide (k = "time")) as [->|Ht].
  { rewrite (built_params_time q limit time direction
               (built_params q limit time direction d)).
    destruct (truthy time) eqn:E; [|reflexivity].
    by rewrite built_params_time, E. }
  apply built_params_other. unfold named_keys.
  rewrite !elem_of_cons, elem_of_nil. tauto.
Qed.

(** X11: when a valid call to [query] on a non-empty dictionary is made a
    second time with the same arguments and the same dictionary, the second
    request carries the same parameters as the first, and the dictionary
    holds exactly those parameters. *)
Theorem repeated_query_sends_same_params {JSON : Type}
    (json_loads : string -> option JSON)
    (host : list Request -> Request -> option Response)
    (q limit time direction : pyval) (l : loc) (st : State) :
  valid_args q direction = true → deref st l ≠ ∅ →
  ∃ req1 req2,
    trace (snd (query json_loads host q limit time direction (Some l)
                  (snd (query json_loads host q limit time direction (Some l)
                          st))))
    = (trace st ++ [req1; req2])%list
    ∧ req_params req2 = req_params req1
    ∧ deref (snd (query json_loads host q limit time direction (Some l)
                    (snd (query json_loads host q limit time direction
                            (Some l) st)))) l
      = req_params req1.
Proof.
  intros Hv Hne.
  set (st1 := snd (query json_loads host q limit time direction (Some l) st)).
  assert (H1 : deref st1 l = built_params q limit time direction (deref st l))
    by by apply query_on_callers_dict.
  assert (Hne1 : deref st1 l ≠ ∅)
    by (rewrite H1; apply built_params_nonempty).
  exists (query_request st q limit time direction (Some l)),
         (query_request st1 q limit time direction (Some l)).
  split; [|split].
  - rewrite query_trace_valid by done. unfold st1.
    rewrite query_trace_valid by done. by rewrite <- app_assoc.
  - unfold query_request; simpl. rewrite H1. apply built_params_idem.
  - rewrite query_on_callers_dict by done. rewrite H1.
    unfold query_request; simpl. apply built_params_idem.
Qed.

Lemma repeated_query_sends_same_params_witness :
  ∃ req1 req2,
    trace (snd (query Sample.json_loads
                  (Sample.host_always (mkResponse 200 "{}"))
                  (VStr "{job=`varlogs`}") (VInt 25) (VStr "1700000000")
                  (VStr "forward") (Some 1%positive)
                  (snd (query Sample.json_loads
                          (Sample.host_always (mkResponse 200 "{}"))
                          (VStr "{job=`varlogs`}") (VInt 25)
                          (VStr "1700000000") (VStr "forward")
                          (Some 1%positive)
                          (Sample.state_with {[ "start" := VStr "1" ]})))))
    = (trace (Sample.state_with {[ "start" := VStr "1" ]}) ++ [req1; req2])%list
    ∧ req_params req2 = req_params req1.
Proof.
  destruct (repeated_query_sends_same_params Sample.json_loads
              (Sample.host_always (mkResponse 200 "{}"))
              (VStr "{job=`varlogs`}") (VInt 25) (VStr "1700000000")
              (VStr "forward") 1%positive
              (Sample.state_with {[ "start" := VStr "1" ]}))
    as (req1 & req2 & Ht & Hp & _).
  - reflexivity.
  - intros H. apply (f_equal (fun m : gmap string pyval => m !! "start")) in H.
    vm_compute in H. discriminate H.
  - exists req1, req2. split; [exact Ht|exact Hp].
Defined.

(** ** What [query] never sends *)

(** X12: whatever the arguments and whatever the caller's extra parameters
    hold, a request sent by [query] carries under ["query"] a non-empty
    string and under ["direction"] either ["backward"] or ["forward"]: an
    entry of the extra parameters under one of these keys never reaches
    the host. *)
Theorem query_sends_checked_arguments {JSON : Type}
    (json_loads : string -> option JSON)
    (host : list Request -> Request -> option Response)
    (q limit time direction : pyval) (params : option loc) (st : State)
    (req : Request) :
  trace (snd (query json_loads host q limit time direction params st))
  = (trace st ++ [req])%list →
  (∃ s, s ≠ EmptyString ∧ req_params req !! "query" = Some (VStr s))
  ∧ (req_params req !! "direction" = Some (VStr "backward")
     ∨ req_params req !! "direction" = Some (VStr "forward")).
Proof.
  intros Ht.
  destruct (valid_args q direction) eqn:Hv.
  - rewrite query_trace_valid in Ht by done.
    apply app_inv_head in Ht. injection Ht as Hreq. subst req.
    apply valid_args_iff in Hv as (Hq & Hs & Hd).
    unfold query_request; cbn [req_params].
    rewrite built_params_query, built_params_direction. split.
    + destruct q as [| | |s|]; try discriminate Hs. exists s. split; [|done].
      intros ->. discriminate Hq.
    + apply supported_direction_iff in Hd as [-> | ->]; auto.
  - exfalso.
    destruct (run_call_trace json_loads host
                (CallQuery q limit time direction params) st)
      as (new & Hn & Hl & _).
    cbn [run_call sends_request] in Hn, Hl. rewrite Hv in Hl.
    destruct new; [|discriminate Hl].
    rewrite Ht, app_nil_r in Hn.
    apply (f_equal length) in Hn. rewrite length_app in Hn. simpl in Hn. lia.
Qed.

Lemma query_sends_checked_arguments_witness :
  ∃ req,
    trace (snd (query Sample.json_loads
                  (Sample.host_always (mkResponse 200 "{}"))
                  (VStr "{job=`varlogs`}") default_limit default_time
                  default_direction (Some 1%positive)
                  (Sample.state_with {[ "direction" := VStr "sideways" ]})))
    = (trace (Sample.state_with {[ "direction" := VStr "sideways" ]})
         ++ [req])%list
    ∧ (req_params req !! "direction" = Some (VStr "backward")
       ∨ req_params req !! "direction" = Some (VStr "forward")).
Proof.
  eexists. split; [vm_compute; reflexivity|].
  eapply (query_sends_checked_arguments Sample.json_loads
            (Sample.host_always (mkResponse 200 "{}"))
            (VStr "{job=`varlogs`}") default_limit default_time
            default_direction (Some 1%positive)
            (Sample.state_with {[ "direction" := VStr "sideways" ]})).
  vm_compute. reflexivity.
Defined.
